(* ===== verification/_CoqProject ===== *)
-Q . S2P
Prelude.v
JsNum.v
Compare.v
Sweep.v
Harness.v
Interleave.v
Pointers.v
