(* ===== verification/Prelude.v ===== *)
(** * Verification of the Web Audio oscillator test harness and the pointers settings page

    The repository fragment has two source files.

    - [src/third_party/WebKit/LayoutTests/webaudio/resources/oscillator-testing.js]
      defines [OscillatorTestingUtils], a closure (an immediately invoked
      function) whose local variables are process-wide state: the sweep
      constants ([sampleRate], [nyquist], [lengthInSeconds], [lowFrequency],
      [highFrequency], [waveScaleFactor]), the pass thresholds
      ([thresholdSNR], [thresholdDiff], [thresholdDiffCount]), the loaded
      [reference] channel and the accumulators [signalPower] and
      [noisePower].  Its functions are

      - [generateExponentialOscillatorSweep]: builds an audio graph
        oscillator -> gain(0.5) -> destination and schedules an
        exponential frequency ramp from 10 Hz to [highFrequency];
      - [calculateSNR]: [10 * Math.log10(sPower / nPower)];
      - [checkResult]: one pass over the rendered channel against
        [reference] accumulating noise and signal power, the maximum absolute
        difference and its position, and the count of strictly positive
        differences; then three assertions (SNR, maximum difference, count)
        and an optional download of the rendered buffer;
      - [setThresholds], [loadReferenceAndRunTest] (a promise chain
        load -> decode -> render -> check -> [task.done]) and [runTest];
      - the exported object, whose threshold fields are copies taken when the
        closure runs.

    - [src/chrome/browser/resources/settings/device_page/pointers.js]
      defines the Polymer element [settings-pointers]: its properties, the
      constant [sensitivityValues_], [getSubsectionClass_] and the link
      handler [onLearnMoreLinkActivated_], which forwards the event to
      the page's [DevicePageBrowserProxyImpl] singleton.

    ** Files of the development (in dependency order)

    - [Prelude] (this file): the scope [js_scope], the hint database
      [oscdb] and rewrite database [oscrw], the tactics [qcase] and
      [qcompare_goal], and the shared lemmas: the indexed fold [ifold]
      (the shape of every [for (k = 0; k < n; ++k)] loop of the sources)
      with its invariant principles [ifold_invariant]/[ifold_invariant0],
      [ifold_ext], [ifold_snoc]; [zip_with_snoc]; the measure lemma
      [sum_list_with_insert_lt]; rational facts.
    - [JsNum]: JavaScript numbers.  [num] is [Fin q] (a rational), [PInf],
      [NInf] or [NaN]; [num_add], [num_sub], [num_mul], [num_div],
      [num_abs] follow ECMAScript on the special values; the relational
      operators [num_lt], [num_le] (and [num_gt], [num_ge]) are false on
      NaN; [toNumber] turns [undefined] into NaN.  [Math.log10] is
      [num_log10] over the class [Log10] of its laws.  The setoid [≡]
      identifies equal rationals; every operation has a [Proper] instance.
    - [Compare] (Module [Compare]): [checkResult] and [calculateSNR].
      [checkStep] is the loop body (lines 118-131), [checkLoop] the loop,
      [loopInit] the locals, [Powers] the closure accumulators,
      [RefChannel]/[refIndex] the [reference] variable and its indexing,
      [Assertion] the Audit calls, [assertionPasses]/[allPass] how Audit
      judges them.  The loop on finite samples is the rational loop
      [qLoop] ([checkLoop_embed]); [qLoop] meets the mathematical
      specification ([sumSq], [countPositive], [IsFirstMax]).
    - [Sweep] (Module [Sweep]): the constants and
      [generateExponentialOscillatorSweep] as a program of the
      state-and-exception monad [Build] over the audio [Context] (its node
      list and connections); each Web Audio call the function makes
      ([createOscillator], [setPeriodicWave], [setType], [createGain],
      [setGain], [connect], [start], [setValueAtTime],
      [exponentialRampToValueAtTime]) is an operation of the monad.
    - [Harness] (Module [Harness]): the closure state [OscState],
      [setThresholds], the exported object [exported], and the promise
      chain [loadReferenceAndRunTest] in [Chain], a state monad over the
      [World] (closure state, the test's context, reported assertions,
      whether [task.done()] ran) whose result is a settled promise.  The
      collaborators are the fields of [Env].  [step] relates worlds by one
      [setThresholds] or [runTest]; [reachable] is its closure from
      [initialWorld].  [Preserves] is an invariant logic for [Chain],
      and [preserves_chain] its frame rule for the whole chain.
    - [Interleave] (Module [Interleave]): the same chain as four
      callbacks ([fire] on a [Run] in [Phase] [AtDecode], [AtRender],
      [AtCheck], [AtDone]), each an atomic step on the closure state
      [OscState] shared by every run of a [Page]; [pstep] starts a run
      ([startRun], the load issued by [runTest]), fires a callback of any
      run, or calls [setThresholds].  [fireAt] and [schedule] fire
      callbacks in a given order of runs (each a sequence of [pstep]s,
      [schedule_rtc]); [fstep] is the event loop alone (callbacks only),
      [rank] the callbacks a run has left.
    - [Pointers] (Module [Pointers]): the [settings-pointers] element.
      JavaScript values [JsVal] with [truthy] and [jsAnd] (the [&&]
      operator); the [properties] block as data ([PropConfig]: type,
      [notify], [readOnly], [value]); the element's state [Element] (its
      property values and the notifications fired), [create] and
      Polymer's setter [hostSet] as that block configures it;
      [getSubsectionClass_]; [onLearnMoreLinkActivated_], forwarding the
      event to the page's proxy ([getInstance] and [handleLinkEvent] are
      minimal models of code outside these sources).

    How they interact: [Harness.runCheck] calls [Compare.checkResult] on the
    closure state and stores the accumulators it returns;
    [Harness.loadReferenceAndRunTest] runs [Sweep.generateExponentialOscillatorSweep]
    in the test's context before rendering it; [Compare] and [Harness]
    compute with [JsNum]'s numbers; [Interleave] reuses [Harness]'s
    collaborators and closure state and [Compare]'s [checkResult].

    ** What the theorems show (claim ids C1-C27)

    - The comparison loop (C1, C4-C9): on finite samples it computes the
      sums of squares, the count of strictly positive differences and the
      first position of the largest absolute difference (C1, a refinement
      of [checkLoop] into the mathematical definitions); the perfect
      match, single positive deviation and uniform negative offset cases
      of the spec (C4, C8, C9); bounds on [diffCount] and [errorPosition]
      for every input, NaN included (C6); the behaviour on buffers of
      different lengths, which the code never compares: a longer
      reference is read only on a prefix (C5), a missing reference sample
      makes both powers NaN (C7).
    - [checkResult] and the SNR (C2, C3, C10-C13): the comparisons are
      inclusive, a metric equal to its threshold passing, against the
      strict wording of the comments (C2); a missing reference sample
      fails the SNR assertion but raises no error (C3); zero noise gives
      [+Infinity] (C10); silent buffers give NaN and fail (C11); the SNR
      is antitone in the noise (C12); the default thresholds pass a
      perfect match, against the comment at lines 33-35 (C13).
    - The sweep (C14, C24): the graph built in any context (the nodes and
      connections already there are kept, the new ones appended), its
      frequency schedule above Nyquist, the oscillator type (C14); the
      graph stays well formed, every connection linking existing nodes
      (C24).
    - The harness (C15-C17, C20, C26, C27): the accumulators are never
      negative in any reachable world (C15, by rule induction on [step]
      through [Preserves]); the order of effects of a successful run
      (C16); a rejected chain never calls [task.done()] (C17); after
      [setThresholds] with a missing property no run can pass (C20, by
      the frame rule [preserves_chain]); an empty render passes every
      assertion once an earlier run has left signal power and no noise,
      and fails on a fresh page (C26, the accumulators leaking between
      runs); after any sequence of calls the thresholds in force are
      those of the last [setThresholds] call ([runCalls],
      [lastSetThresholds]), while the exported threshold fields keep the
      defaults (C27).
    - The pointers page (C18, C21): the sections are subsections exactly
      when both devices are truthy, [true] for Boolean values (C18);
      under any writes from the host, [sensitivityValues_] keeps its
      declared value and only [prefs-changed] is fired, carrying the
      current [prefs] (C21, an invariant by induction on [estep]).
    - Overlapping runs (C19, C22, C23, C25): with two runs started, the
      schedule in which run B stores its reference between run A's store
      and A's check makes A, a perfect match, fail, while the schedule
      that runs A then B makes both pass (C19); every sequence of
      callback firings is finite (C22, [sn fstep] by the measure
      [pageRank]); the decode and done callbacks commute with any
      callback of another run (C23), so only the callbacks that store
      [reference] or run the check race; a run is judged by the
      thresholds in force when its check callback fires, so a
      [setThresholds] call while it renders decides its verdict (C25).

    There is no fuel: every loop of the sources is a structural [ifold]
    over a list, [schedule] recurses on the list of runs to fire, and
    every function of the model is total.

    ** Not modelled

    - How the engine renders the graph: the exponential ramp
      [v(t) = 10 (24050 / 10)^(t / 4)] and its crossing of the Nyquist
      frequency: the engine is not part of these sources, and the model
      records only the automation events the code schedules.
    - The 16-bit encoding of the reference and of the downloaded file:
      the sources only export [waveScaleFactor] and call
      [downloadAudioBuffer]; the encoding lives in Audit and the WAV
      decoder, outside this fragment.
    - Rounding of doubles and of the Float32Array samples, and the sign
      of zero: the theorems hold of exact arithmetic on the finite
      values; a model of IEEE binary32/binary64 is not part of this
      development.
    - Audit's reporting beyond the pass/fail judgement of each assertion
      ([assertionPasses]); file loading, decoding, rendering and download
      are the abstract fields of [Env], which the theorems quantify over.
    - Polymer's template and rendering, the HTML that binds
      [getSubsectionClass_] (not among the sources), and the browser
      proxy's own handling of a link event ([handleLinkEvent] records
      the call).
    - Polymer shares an array given as a property's [value] between
      instances; [sensitivityValues_] is never mutated by the sources,
      so the model gives each element the value itself.

    ** Modelling choices

    - A JavaScript number is [Fin q] for a rational [q], [PInf], [NInf] or
      [NaN].  Arithmetic on finite values is exact: the rounding of IEEE
      doubles (and of the Float32Array samples) is not modelled, nor is the
      sign of zero.  The quantities that carry a sign of zero in the code
      ([noisePower], [signalPower], sums of squares starting at [+0]) are
      never negative zero, so a single zero loses nothing for them.
    - [Math.log10] is not computable on rationals; the development states
      the laws of a correctly behaving logarithm (monotone on positive
      numbers, [log10 1 = 0], compatible with [==]) as the class [Log10]
      and proves every theorem for every instance.  A concrete instance
      (a Padé approximant) exists only so that witnesses compute.
    - JavaScript indexing past the end of an array yields [undefined];
      arithmetic on it yields NaN.  This is modelled with stdpp's list
      lookup [!!] and [ToNumber] of the missing value.
    - Counters that only ever hold small non-negative integers
      ([diffCount], loop indices) are [nat]; [errorPosition], which starts
      at [-1], is [Z]. *)

From stdpp Require Export base list decidable.
From Stdlib Require Export QArith Qabs Lqa ZArith.

Open Scope nat_scope.

Declare Scope js_scope.
Delimit Scope js_scope with js.

Create HintDb oscdb.
Create Rewrite HintDb oscrw.

(** ** The indexed fold: [for (var k = 0; k < xs.length; ++k) s = f(k, xs[k], s)] *)

Fixpoint ifold {A S : Type} (f : nat -> A -> S -> S) (k : nat) (l : list A) (s : S) : S :=
  match l with
  | [] => s
  | x :: l' => ifold f (Datatypes.S k) l' (f k x s)
  end.

Section IFold.
Context {A S : Type} (f : nat -> A -> S -> S).

Lemma ifold_app k (l1 l2 : list A) s :
  ifold f k (l1 ++ l2) s = ifold f (k + length l1) l2 (ifold f k l1 s).
Proof.
  revert k s. induction l1 as [|x l1 IH]; intros k s; simpl.
  - by rewrite Nat.add_0_r.
  - rewrite IH. f_equal. lia.
Qed.

Lemma ifold_snoc k (l : list A) x s :
  ifold f k (l ++ [x]) s = f (k + length l) x (ifold f k l s).
Proof. by rewrite ifold_app. Qed.

(** An invariant of the loop state indexed by the loop counter. *)
Lemma ifold_invariant (P : nat -> S -> Prop) k (l : list A) s :
  P k s ->
  (forall i x s', l !! (i - k) = Some x -> k <= i -> P i s' -> P (Datatypes.S i) (f i x s')) ->
  P (k + length l) (ifold f k l s).
Proof.
  revert k s. induction l as [|x l IH]; intros k s H0 Hstep; simpl.
  - by rewrite Nat.add_0_r.
  - replace (k + Datatypes.S (length l)) with (Datatypes.S k + length l) by lia.
    apply IH.
    + apply Hstep; [by rewrite Nat.sub_diag | lia | done].
    + intros i y s' Hy Hi HP. apply Hstep; [|lia|done].
      replace (i - k) with (Datatypes.S (i - Datatypes.S k)) by lia. done.
Qed.
(** The same for a loop that starts at index 0. *)
Lemma ifold_invariant0 (P : nat -> S -> Prop) (l : list A) s :
  P 0 s ->
  (forall i x s', l !! i = Some x -> P i s' -> P (Datatypes.S i) (f i x s')) ->
  P (length l) (ifold f 0 l s).
Proof.
  intros H0 Hstep. apply (ifold_invariant P 0 l s H0).
  intros i x s' Hx _. rewrite Nat.sub_0_r in Hx. by apply Hstep.
Qed.

(** Two loop bodies that agree on the elements visited give the same loop. *)
Lemma ifold_ext (g : nat -> A -> S -> S) k (l : list A) s :
  (forall i x s', l !! (i - k) = Some x -> k <= i -> f i x s' = g i x s') ->
  ifold f k l s = ifold g k l s.
Proof.
  revert k s. induction l as [|x l IH]; intros k s Hfg; simpl; [done|].
  rewrite Hfg; [|by rewrite Nat.sub_diag|lia].
  apply IH. intros i y s' Hy Hi. apply Hfg; [|lia].
  replace (i - k) with (Datatypes.S (i - Datatypes.S k)) by lia. done.
Qed.
End IFold.

(** [zip_with] of a list extended by one element, when the other list is
    long enough. *)
(** Replacing an element by a smaller one (for a measure [f]) decreases
    the sum of the measure over the list. *)
Lemma sum_list_with_insert_lt {A} (f : A -> nat) (l : list A) i x y :
  l !! i = Some x -> f y < f x -> sum_list_with f (<[i := y]> l) < sum_list_with f l.
Proof.
  intros Hi Hlt. rewrite <- (take_drop_middle l i x Hi) at 2.
  rewrite insert_take_drop by (eapply lookup_lt_Some; eauto).
  rewrite !sum_list_with_app. cbn. lia.
Qed.

Lemma zip_with_snoc {A B C} (f : A -> B -> C) (xs : list A) x (ys : list B) y :
  ys !! length xs = Some y ->
  zip_with f (xs ++ [x]) ys = zip_with f xs ys ++ [f x y].
Proof.
  intros Hy. rewrite zip_with_app_l, zip_with_take_r, (drop_S _ _ _ Hy).
  done.
Qed.

(** ** Rationals *)

Lemma Qsq_nonneg (x : Q) : (0 <= x * x)%Q.
Proof. nra. Qed.

Lemma Qplus_sq_nonneg (a x : Q) : (0 <= a -> 0 <= a + x * x)%Q.
Proof. nra. Qed.

#[export] Instance Qlt_rel_dec : RelDecision Qlt.
Proof.
  intros x y. destruct (Qlt_le_dec x y) as [H|H]; [left; done|right].
  intros H'. apply (Qle_not_lt _ _ H H').
Defined.

#[export] Hint Resolve Qsq_nonneg Qplus_sq_nonneg Qabs_nonneg : oscdb.

(** Case analysis on the comparison of two rationals, with the three
    outcomes as hypotheses. *)
Ltac qcase x y :=
  let H := fresh "Hcmp" in
  destruct (Qcompare_spec x y) as [H|H|H].

(** Unfold a boolean [match] on a [Qcompare] in the goal. *)
Ltac qcompare_goal :=
  match goal with
  | |- context [Qcompare ?x ?y] => qcase x y
  end.
