(* ===== verification/JsNum.v ===== *)
(** * JavaScript numbers as the harness uses them

    [num] is a JavaScript number: a finite value (an exact rational: the
    rounding of doubles is not modelled), [+Infinity], [-Infinity] or [NaN].
    The operations are those oscillator-testing.js applies to numbers:
    [+], [-], [*], [/], [Math.abs], [Math.log10], the relational operators
    [<], [<=], [>], [>=] (all false when an operand is NaN) and the
    conversion of [undefined] (an array read past its end) to NaN.
    Numbers are compared with the setoid equivalence [≡]: equal rationals,
    or the same special value; every operation is [Proper] for it. *)

From S2P Require Import Prelude.
From Stdlib Require Import DecimalString.

Inductive num : Type :=
| Fin (q : Q)
| PInf
| NInf
| NaN.

(** ** Arithmetic (ECMAScript Number::add, ::subtract, ::multiply, ::divide) *)

Definition num_neg (x : num) : num :=
  match x with
  | Fin a => Fin (- a)
  | PInf => NInf
  | NInf => PInf
  | NaN => NaN
  end.

Definition num_add (x y : num) : num :=
  match x, y with
  | Fin a, Fin b => Fin (a + b)
  | NaN, _ | _, NaN => NaN
  | PInf, NInf | NInf, PInf => NaN
  | PInf, _ | _, PInf => PInf
  | NInf, _ | _, NInf => NInf
  end.

Definition num_sub (x y : num) : num := num_add x (num_neg y).

(** The infinity of the sign of a finite non-zero factor. *)
Definition inf_by_sign (a : Q) (pos neg : num) : num :=
  match Qcompare a 0 with
  | Eq => NaN
  | Gt => pos
  | Lt => neg
  end.

Definition num_mul (x y : num) : num :=
  match x, y with
  | Fin a, Fin b => Fin (a * b)
  | NaN, _ | _, NaN => NaN
  | Fin a, PInf | PInf, Fin a => inf_by_sign a PInf NInf
  | Fin a, NInf | NInf, Fin a => inf_by_sign a NInf PInf
  | PInf, PInf | NInf, NInf => PInf
  | PInf, NInf | NInf, PInf => NInf
  end.

Definition num_div (x y : num) : num :=
  match x, y with
  | Fin a, Fin b =>
      match Qcompare b 0 with
      | Eq => inf_by_sign a PInf NInf
      | _ => Fin (a / b)
      end
  | NaN, _ | _, NaN => NaN
  | Fin _, PInf | Fin _, NInf => Fin 0
  | PInf, Fin b => match Qcompare b 0 with Lt => NInf | _ => PInf end
  | NInf, Fin b => match Qcompare b 0 with Lt => PInf | _ => NInf end
  | _, _ => NaN
  end.

(** [Math.abs] *)
Definition num_abs (x : num) : num :=
  match x with
  | Fin a => Fin (Qabs a)
  | PInf | NInf => PInf
  | NaN => NaN
  end.

(** ** Relational operators: [x < y] and [x <= y]; [>] and [>=] swap the operands *)

Definition num_lt (x y : num) : bool :=
  match x, y with
  | Fin a, Fin b => match Qcompare a b with Lt => true | _ => false end
  | NInf, (Fin _ | PInf) => true
  | Fin _, PInf => true
  | _, _ => false
  end.

Definition num_le (x y : num) : bool :=
  match x, y with
  | NaN, _ | _, NaN => false
  | Fin a, Fin b => Qle_bool a b
  | NInf, _ => true
  | _, PInf => true
  | _, _ => false
  end.

Definition num_gt (x y : num) : bool := num_lt y x.
Definition num_ge (x y : num) : bool := num_le y x.

(** A number that is not negative: a non-negative finite value,
    [+Infinity] or NaN (sums of squares are of this kind). *)
Definition num_nonneg (x : num) : Prop :=
  match x with
  | Fin a => (0 <= a)%Q
  | PInf | NaN => True
  | NInf => False
  end.

(** ** Conversions *)

(** [ToNumber] of an array element read: [undefined] past the end is NaN. *)
Definition toNumber (o : option num) : num :=
  match o with
  | Some x => x
  | None => NaN
  end.

Definition num_of_nat (n : nat) : num := Fin (inject_Z (Z.of_nat n)).
Definition num_of_Z (z : Z) : num := Fin (inject_Z z).

(** [String(n)] for a non-negative integer [n]: its decimal digits. *)
Definition nat_to_string (n : nat) : String.string :=
  NilZero.string_of_uint (Nat.to_uint n).

Notation "x ⊕ y" := (num_add x y) (at level 50, left associativity) : js_scope.
Notation "x ⊖ y" := (num_sub x y) (at level 50, left associativity) : js_scope.
Notation "x ⊗ y" := (num_mul x y) (at level 40, left associativity) : js_scope.
Notation "x ⊘ y" := (num_div x y) (at level 40, left associativity) : js_scope.
Notation "x <ⱼ y" := (num_lt x y) (at level 70, no associativity) : js_scope.
Notation "x ≤ⱼ y" := (num_le x y) (at level 70, no associativity) : js_scope.
Notation "x >ⱼ y" := (num_gt x y) (at level 70, no associativity) : js_scope.
Notation "x ≥ⱼ y" := (num_ge x y) (at level 70, no associativity) : js_scope.

(** ** [Math.log10] *)

(** The laws a logarithm has on positive finite arguments. *)
Class Log10 := {
  log10 : Q -> Q;
  log10_wd : forall x y, (x == y)%Q -> (log10 x == log10 y)%Q;
  log10_mono : forall x y, (0 < x)%Q -> (x <= y)%Q -> (log10 x <= log10 y)%Q;
  log10_1 : (log10 1 == 0)%Q;
  log10_10 : (log10 10 == 1)%Q
}.

Definition num_log10 `{Log10} (x : num) : num :=
  match x with
  | Fin a =>
      match Qcompare a 0 with
      | Eq => NInf
      | Lt => NaN
      | Gt => Fin (log10 a)
      end
  | PInf => PInf
  | NInf | NaN => NaN
  end.

(** ** The setoid equivalence of numbers *)

Definition num_eqv (x y : num) : Prop :=
  match x, y with
  | Fin a, Fin b => (a == b)%Q
  | PInf, PInf | NInf, NInf | NaN, NaN => True
  | _, _ => False
  end.

#[export] Instance num_equiv : Equiv num := num_eqv.

#[export] Instance num_equivalence : Equivalence (≡@{num}).
Proof.
  split.
  - intros [a| | |]; cbn; [apply Qeq_refl|done..].
  - intros [a| | |] [b| | |]; cbn; first [done | apply Qeq_sym].
  - intros [a| | |] [b| | |] [c| | |]; cbn; first [done | apply Qeq_trans].
Qed.

#[export] Instance num_equiv_dec : RelDecision (≡@{num}).
Proof.
  intros [a| | |] [b| | |]; cbn;
    first [apply Qeq_dec | left; done | right; intros []].
Defined.

Lemma Fin_equiv (a b : Q) : Fin a ≡ Fin b <-> (a == b)%Q.
Proof. done. Qed.

Ltac num_unfold := unfold equiv, num_equiv, num_eqv in *.

(** Turn the outcomes of rational comparisons in the context into
    propositions [lra] understands. *)
Ltac qcompare_hyps :=
  repeat match goal with
  | E : (?a ?= ?b)%Q = Eq |- _ => apply Qeq_alt in E
  | E : (?a ?= ?b)%Q = Lt |- _ => apply Qlt_alt in E
  | E : (?a ?= ?b)%Q = Gt |- _ => apply Qgt_alt in E
  | E : Qle_bool ?a ?b = true |- _ => apply Qle_bool_iff in E
  | E : Qle_bool ?a ?b = false |- _ =>
      apply not_true_iff_false in E; rewrite Qle_bool_iff in E; apply Qnot_le_lt in E
  end.

(** Close a [Proper] goal of a number operation: split every constructor
    and every comparison, discard the inconsistent cases with [lra], and
    close the finite ones by rewriting the rational equivalences. *)
Ltac solve_num_proper :=
  repeat (let x := fresh "x" in let y := fresh "y" in let H := fresh "H" in
          intros x y H; destruct x, y);
  num_unfold; cbn in *; try contradiction; try done;
  unfold inf_by_sign in *;
  repeat case_match; simplify_eq; qcompare_hyps; num_unfold; try done; try lra;
  repeat match goal with H : (?a == ?b)%Q |- _ => rewrite H; clear H end;
  try reflexivity.

#[export] Instance Fin_proper : Proper (Qeq ==> (≡)) Fin.
Proof. intros a b H. exact H. Qed.
#[export] Instance num_neg_proper : Proper ((≡) ==> (≡)) num_neg.
Proof. solve_num_proper. Qed.
#[export] Instance num_add_proper : Proper ((≡) ==> (≡) ==> (≡)) num_add.
Proof. solve_num_proper. Qed.
#[export] Instance num_sub_proper : Proper ((≡) ==> (≡) ==> (≡)) num_sub.
Proof. intros x x' Hx y y' Hy. unfold num_sub. by rewrite Hx, Hy. Qed.
#[export] Instance num_mul_proper : Proper ((≡) ==> (≡) ==> (≡)) num_mul.
Proof. solve_num_proper. Qed.
#[export] Instance num_div_proper : Proper ((≡) ==> (≡) ==> (≡)) num_div.
Proof. solve_num_proper. Qed.
#[export] Instance num_abs_proper : Proper ((≡) ==> (≡)) num_abs.
Proof. solve_num_proper. Qed.
#[export] Instance num_lt_proper : Proper ((≡) ==> (≡) ==> (=)) num_lt.
Proof. solve_num_proper. Qed.
#[export] Instance num_le_proper : Proper ((≡) ==> (≡) ==> (=)) num_le.
Proof. solve_num_proper. Qed.
#[export] Instance num_gt_proper : Proper ((≡) ==> (≡) ==> (=)) num_gt.
Proof. intros x x' Hx y y' Hy. unfold num_gt. by rewrite Hx, Hy. Qed.
#[export] Instance num_ge_proper : Proper ((≡) ==> (≡) ==> (=)) num_ge.
Proof. intros x x' Hx y y' Hy. unfold num_ge. by rewrite Hx, Hy. Qed.

#[export] Instance log10_proper `{Log10} : Proper (Qeq ==> Qeq) log10.
Proof. intros x y Hxy. by apply log10_wd. Qed.
#[export] Instance num_log10_proper `{Log10} : Proper ((≡) ==> (≡)) num_log10.
Proof. solve_num_proper. Qed.

(** ** Evaluation lemmas *)

Section Eval.
Implicit Types x y : num.

Lemma num_add_NaN_l x : num_add NaN x = NaN. Proof. by destruct x. Qed.
Lemma num_add_NaN_r x : num_add x NaN = NaN. Proof. by destruct x. Qed.
Lemma num_mul_NaN_l x : num_mul NaN x = NaN. Proof. by destruct x. Qed.
Lemma num_mul_NaN_r x : num_mul x NaN = NaN. Proof. by destruct x. Qed.
Lemma num_sub_NaN_r x : num_sub x NaN = NaN. Proof. by destruct x. Qed.
Lemma num_lt_NaN_r x : num_lt x NaN = false. Proof. by destruct x. Qed.
Lemma num_le_NaN_r x : num_le x NaN = false. Proof. by destruct x. Qed.
Lemma num_lt_NaN_l x : num_lt NaN x = false. Proof. by destruct x. Qed.
Lemma num_div_NaN_r x : num_div x NaN = NaN. Proof. by destruct x. Qed.



Lemma num_add_Fin a b : num_add (Fin a) (Fin b) = Fin (a + b). Proof. done. Qed.
Lemma num_sub_Fin a b : num_sub (Fin a) (Fin b) = Fin (a - b). Proof. done. Qed.
Lemma num_mul_Fin a b : num_mul (Fin a) (Fin b) = Fin (a * b). Proof. done. Qed.
Lemma num_abs_Fin a : num_abs (Fin a) = Fin (Qabs a). Proof. done. Qed.
Lemma num_gt_Fin_cmp a b :
  num_gt (Fin a) (Fin b) = match (b ?= a)%Q with Lt => true | _ => false end.
Proof. done. Qed.

Lemma num_lt_Fin a b : num_lt (Fin a) (Fin b) = true <-> (a < b)%Q.
Proof.
  cbn. rewrite Qlt_alt. destruct (a ?= b)%Q; split; congruence.
Qed.

Lemma num_le_Fin a b : num_le (Fin a) (Fin b) = true <-> (a <= b)%Q.
Proof. apply Qle_bool_iff. Qed.

Lemma num_lt_Fin_false a b : num_lt (Fin a) (Fin b) = false <-> (b <= a)%Q.
Proof.
  rewrite <- not_true_iff_false, num_lt_Fin. split; [apply Qnot_lt_le|].
  intros ??. lra.
Qed.

Lemma num_le_Fin_false a b : num_le (Fin a) (Fin b) = false <-> (b < a)%Q.
Proof.
  rewrite <- not_true_iff_false, num_le_Fin. split; [apply Qnot_le_lt|].
  intros ??. lra.
Qed.

(** [x >= y] and [x < y] are each other's negation unless NaN is involved. *)
Lemma num_le_not_lt x y :
  x ≠ NaN -> y ≠ NaN -> num_le x y = negb (num_lt y x).
Proof.
  destruct x as [a| | |], y as [b| | |]; intros ??; try done.
  cbn. destruct (Qle_bool a b) eqn:E.
  - apply Qle_bool_iff in E. qcase b a; try done. lra.
  - apply not_true_iff_false in E. rewrite Qle_bool_iff in E.
    qcase b a; try done; lra.
Qed.

(** [Math.abs] is never negative, and NaN only on NaN. *)
Lemma num_abs_nonneg x : num_abs x ≠ NaN -> num_le (Fin 0) (num_abs x) = true.
Proof.
  destruct x as [a| | |]; intros Hx; try done.
  apply num_le_Fin, Qabs_nonneg.
Qed.

Lemma num_gt_not_NaN_l x y : num_gt x y = true -> x ≠ NaN.
Proof. intros H ->. by destruct y. Qed.
(** Adding a square keeps a number non-negative. *)
Lemma num_nonneg_add_sq x y : num_nonneg x -> num_nonneg (num_add x (num_mul y y)).
Proof.
  destruct x as [a| | |], y as [b| | |]; cbn; try done;
    first [intros; nra | unfold inf_by_sign; destruct (Qcompare_spec b 0); done].
Qed.

Lemma num_equiv_NaN x : x ≡ NaN -> x = NaN.
Proof. by destruct x. Qed.

Lemma num_equiv_PInf x : x ≡ PInf -> x = PInf.
Proof. by destruct x. Qed.

End Eval.

(** [x <= x] holds of every number but NaN. *)
Lemma num_le_refl x : x <> NaN -> num_le x x = true.
Proof. destruct x; try done. intros _. apply Qle_bool_iff. apply Qle_refl. Qed.


#[export] Hint Rewrite num_add_Fin num_sub_Fin num_mul_Fin num_abs_Fin num_gt_Fin_cmp : oscrw.
#[export] Hint Rewrite num_add_NaN_l num_add_NaN_r num_mul_NaN_l num_mul_NaN_r num_sub_NaN_r num_div_NaN_r
  num_lt_NaN_r num_le_NaN_r num_lt_NaN_l : oscrw.

(** ** A computable logarithm model for evaluating concrete runs *)

(** The first Padé approximant of the logarithm at 1, [(q - 1) / (q + 1)],
    scaled so that 10 maps to 1.  It satisfies the laws of [Log10];
    theorems never depend on it. *)
Definition pade_log10 (q : Q) : Q := (11 # 9) * ((q - 1) / (q + 1)).

Lemma pade_log10_wd x y : (x == y)%Q -> (pade_log10 x == pade_log10 y)%Q.
Proof. intros Hxy. unfold pade_log10. by rewrite Hxy. Qed.

Lemma pade_log10_mono x y :
  (0 < x)%Q -> (x <= y)%Q -> (pade_log10 x <= pade_log10 y)%Q.
Proof.
  intros Hx Hxy. unfold pade_log10, Qdiv.
  assert (((x + 1) * / (x + 1) == 1)%Q) by (apply Qmult_inv_r; lra).
  assert (((y + 1) * / (y + 1) == 1)%Q) by (apply Qmult_inv_r; lra).
  assert ((0 < / (x + 1))%Q) by (apply Qinv_lt_0_compat; lra).
  assert ((0 < / (y + 1))%Q) by (apply Qinv_lt_0_compat; lra).
  nra.
Qed.

Lemma pade_log10_1 : (pade_log10 1 == 0)%Q.
Proof. reflexivity. Qed.

Lemma pade_log10_10 : (pade_log10 10 == 1)%Q.
Proof. reflexivity. Qed.

(** Not an instance: concrete runs name it explicitly. *)
Definition pade_Log10 : Log10 :=
  {| log10 := pade_log10; log10_wd := pade_log10_wd;
     log10_mono := pade_log10_mono; log10_1 := pade_log10_1;
     log10_10 := pade_log10_10 |}.
