(* ===== verification/Compare.v ===== *)
(** * The comparator of oscillator-testing.js: [checkResult] and [calculateSNR]

    [checkStep] is the body of the loop of [checkResult] (lines 118-131),
    [checkLoop] the loop, [calculateSNR] lines 86-89 and [checkResult]
    lines 109-147: the loop, the three assertions and the optional download
    of the rendered buffer.  The closure variables the function reads and
    writes ([reference], [signalPower], [noisePower], the thresholds) are
    passed in and returned explicitly.

    The theorems: the loop refines the mathematical definitions (sums of
    squares, count of strictly positive differences, first position of the
    largest absolute difference); bounds on the counters for every input;
    what happens when the two buffers differ in length (the code has no
    length check); the perfect-match and all-zero cases of the SNR; the
    monotonicity of the SNR; the assertions [checkResult] always emits and
    the verdict they give. *)

From S2P Require Import Prelude JsNum.
From stdpp Require Import strings.

Module Compare.
Local Open Scope js_scope.

(** ** Data *)

(** The closure variable [reference] (line 53): the number [0] until a
    reference has been decoded, then a Float32Array (line 99). *)
Inductive RefChannel : Type :=
| RefInitial
| RefLoaded (samples : list num).

(** [reference[k]]: a read past the end, or on the number [0], is [undefined]. *)
Definition refIndex (reference : RefChannel) (k : nat) : option num :=
  match reference with
  | RefInitial => None
  | RefLoaded xs => xs !! k
  end.

(** The closure accumulators [signalPower] and [noisePower] (lines 55-59):
    [checkResult] adds to them and never resets them. *)
Record Powers : Type := mkPowers {
  signalPower : num;
  noisePower : num
}.

(** Their initial values. *)
Definition initialPowers : Powers := mkPowers (Fin 0) (Fin 0).

(** The variables the loop of [checkResult] updates (lines 114-116 and the
    two accumulators). *)
Record LoopState : Type := mkLoop {
  maxError : num;
  errorPosition : Z;
  diffCount : nat;
  powers : Powers
}.

(** The thresholds [thresholdSNR], [thresholdDiff], [thresholdDiffCount]. *)
Record Thresholds : Type := mkThresholds {
  thresholdSNR : num;
  thresholdDiff : num;
  thresholdDiffCount : num
}.

(** Their initial values (lines 41, 44, 48). *)
Definition defaultThresholds : Thresholds :=
  mkThresholds (Fin 10000) (Fin 0) (Fin 0).

(** An AudioBuffer: its channels. *)
Record AudioBuffer : Type := mkAudioBuffer { channels : list (list num) }.

(** [getChannelData(i)]: [None] is the IndexSizeError it throws. *)
Definition getChannelData (b : AudioBuffer) (i : nat) : option (list num) :=
  channels b !! i.

(** The assertions of the Audit library that [checkResult] makes. *)
Inductive Check : Type :=
| BeGreaterThanOrEqualTo (expected : num)
| BeLessThanOrEqualTo (expected : num).

Inductive Assertion : Type :=
| Should (actual : num) (label : string) (c : Check)
| ShouldMessage (label : string) (passMessage : string).

(** ** The loop of [checkResult] (lines 114-131) *)

Definition checkStep (reference : RefChannel) (k : nat) (x : num)
    (st : LoopState) : LoopState :=
  let r := toNumber (refIndex reference k) in
  let diff := x ⊖ r in
  let noise := noisePower (powers st) ⊕ diff ⊗ diff in
  let signal := signalPower (powers st) ⊕ r ⊗ r in
  let better := num_gt (num_abs diff) (maxError st) in
  mkLoop (if better then num_abs diff else maxError st)
         (if better then Z.of_nat k else errorPosition st)
         (if num_gt diff (Fin 0) then S (diffCount st) else diffCount st)
         (mkPowers signal noise).

Definition loopInit (p : Powers) : LoopState := mkLoop (Fin (-1)) (-1)%Z 0 p.

Definition checkLoop (reference : RefChannel) (renderedData : list num)
    (p : Powers) : LoopState :=
  ifold (checkStep reference) 0 renderedData (loopInit p).

(** The accumulators hold sums of squares: neither is negative. *)
Definition PowersOK (p : Powers) : Prop :=
  num_nonneg (signalPower p) /\ num_nonneg (noisePower p).

(** ** [calculateSNR] (lines 86-89) *)

Definition calculateSNR `{Log10} (sPower nPower : num) : num :=
  Fin 10 ⊗ num_log10 (sPower ⊘ nPower).

(** ** [checkResult] (lines 109-147) *)

Record CheckOutcome : Type := mkOutcome {
  outLoop : LoopState;
  outSNR : num;
  outAssertions : list Assertion
}.

Definition countLabel (n : nat) : string :=
  String.append "Number of differences between actual and expected result out of "
    (String.append (nat_to_string n) " frames").

Definition actualFilename (oscType : string) : string :=
  String.append "oscillator-" (String.append oscType "-actual.wav").

(** [download] is [downloadAudioBuffer(renderedBuffer, filename, true)]:
    whether the file was saved.  [None] is the exception
    [getChannelData(0)] throws on a buffer without channels. *)
Definition checkResult `{Log10} (th : Thresholds) (reference : RefChannel)
    (p : Powers) (download : AudioBuffer -> string -> bool)
    (renderedBuffer : AudioBuffer) (oscType : string) : option CheckOutcome :=
  renderedData ← getChannelData renderedBuffer 0;
  let st := checkLoop reference renderedData p in
  let snr := calculateSNR (signalPower (powers st)) (noisePower (powers st)) in
  let filename := actualFilename oscType in
  Some (mkOutcome st snr
    ([Should snr "SNR" (BeGreaterThanOrEqualTo (thresholdSNR th));
      Should (maxError st) "Maximum difference" (BeLessThanOrEqualTo (thresholdDiff th));
      Should (num_of_nat (diffCount st)) (countLabel (length renderedData))
             (BeLessThanOrEqualTo (thresholdDiffCount th))]
     ++ (if download renderedBuffer filename
         then [ShouldMessage "Saved reference file" filename] else []))).

(** How Audit judges an assertion: [actual >= expected], [actual <= expected]
    (JavaScript comparisons); [should(true, ...).message(...)] passes. *)
Definition assertionPasses (a : Assertion) : bool :=
  match a with
  | Should x _ (BeGreaterThanOrEqualTo e) => num_ge x e
  | Should x _ (BeLessThanOrEqualTo e) => num_le x e
  | ShouldMessage _ _ => true
  end.

Definition allPass (l : list Assertion) : bool := forallb assertionPasses l.

(** ** The loop on finite samples, in rationals

    When every sample is finite and the reference is long enough, every
    value the loop computes is finite: the loop is then the rational loop
    [qLoop] over the pairs (rendered sample, reference sample). *)

Record QState : Type := mkQ {
  qMax : Q;
  qPos : Z;
  qCount : nat;
  qSignal : Q;
  qNoise : Q
}.

Definition qStep (k : nat) (xr : Q * Q) (q : QState) : QState :=
  let '(x, r) := xr in
  let d := (x - r)%Q in
  let better := match (qMax q ?= Qabs d)%Q with Lt => true | _ => false end in
  mkQ (if better then Qabs d else qMax q)
      (if better then Z.of_nat k else qPos q)
      (match (0 ?= d)%Q with Lt => S (qCount q) | _ => qCount q end)
      (qSignal q + r * r)%Q (qNoise q + d * d)%Q.

Definition qLoop (s0 n0 : Q) (ps : list (Q * Q)) : QState :=
  ifold qStep 0 ps (mkQ (-1) (-1) 0 s0 n0).

Definition embedQ (q : QState) : LoopState :=
  mkLoop (Fin (qMax q)) (qPos q) (qCount q)
         (mkPowers (Fin (qSignal q)) (Fin (qNoise q))).

(** ** The mathematical specification of the loop *)

Definition sampleDiffs (ps : list (Q * Q)) : list Q := (fun p => p.1 - p.2)%Q <$> ps.

Definition sumSq (ds : list Q) : Q := foldr (fun d acc => d * d + acc)%Q 0%Q ds.

Definition countPositive (ds : list Q) : nat := length (filter (fun d => 0 < d)%Q ds).

(** [p] is the first position of the largest absolute value [m] of [ds]. *)
Definition IsFirstMax (ds : list Q) (p : nat) (m : Q) : Prop :=
  (exists d, ds !! p = Some d /\ (Qabs d == m)%Q) /\
  (forall i d, ds !! i = Some d -> (Qabs d <= m)%Q) /\
  (forall i d, (i < p)%nat -> ds !! i = Some d -> (Qabs d < m)%Q).

(** ** Lemmas on the loop *)

Lemma checkLoop_snoc reference xs x p :
  checkLoop reference (xs ++ [x]) p =
  checkStep reference (length xs) x (checkLoop reference xs p).
Proof. unfold checkLoop. by rewrite ifold_snoc. Qed.

Lemma checkStep_fin reference k x r q :
  refIndex reference k = Some (Fin r) ->
  checkStep reference k (Fin x) (embedQ q) = embedQ (qStep k (x, r) q).
Proof.
  intros Hr. unfold checkStep, qStep, embedQ. rewrite Hr.
  cbn [toNumber maxError errorPosition diffCount powers signalPower noisePower].
  autorewrite with oscrw.
  by destruct (qMax q ?= Qabs (x - r))%Q, (0 ?= x - r)%Q.
Qed.

Lemma qLoop_snoc s0 n0 ps xr :
  qLoop s0 n0 (ps ++ [xr]) = qStep (length ps) xr (qLoop s0 n0 ps).
Proof. unfold qLoop. by rewrite ifold_snoc. Qed.

(** The loop on finite samples is the rational loop. *)
Lemma checkLoop_embed xs rs s0 n0 :
  length xs <= length rs ->
  checkLoop (RefLoaded (Fin <$> rs)) (Fin <$> xs) (mkPowers (Fin s0) (Fin n0)) =
  embedQ (qLoop s0 n0 (zip xs rs)).
Proof.
  induction xs as [|x xs IH] using rev_ind; intros Hlen; [reflexivity|].
  rewrite length_app in Hlen; simpl in Hlen.
  destruct (lookup_lt_is_Some_2 rs (length xs)) as [r Hr]; [lia|].
  rewrite fmap_app. change (Fin <$> [x]) with [Fin x].
  rewrite checkLoop_snoc, IH, length_fmap by lia.
  rewrite (checkStep_fin _ _ _ r) by (simpl; by rewrite list_lookup_fmap, Hr).
  rewrite (zip_with_snoc pair xs x rs r Hr), qLoop_snoc.
  by rewrite length_zip_with_l by lia.
Qed.

(** ** The rational loop meets the specification *)

Lemma sumSq_app l1 l2 : (sumSq (l1 ++ l2) == sumSq l1 + sumSq l2)%Q.
Proof.
  induction l1 as [|d l1 IH]; simpl; [lra|].
  unfold sumSq in *. simpl. rewrite IH. lra.
Qed.

Lemma sampleDiffs_snoc ps x r :
  sampleDiffs (ps ++ [(x, r)]) = sampleDiffs ps ++ [(x - r)%Q].
Proof. unfold sampleDiffs. by rewrite fmap_app. Qed.

Lemma length_sampleDiffs ps : length (sampleDiffs ps) = length ps.
Proof. apply length_fmap. Qed.

Lemma IsFirstMax_single d : IsFirstMax [d] 0 (Qabs d).
Proof.
  split; [|split].
  - exists d. split; [done|reflexivity].
  - intros [|i] d' Hd; simpl in Hd; [|done]. injection Hd as <-. lra.
  - intros i d' Hi. lia.
Qed.

(** A new absolute difference larger than the maximum so far is the new
    first maximum, at the new position. *)
Lemma IsFirstMax_snoc_gt ds p m d :
  IsFirstMax ds p m -> (m < Qabs d)%Q -> IsFirstMax (ds ++ [d]) (length ds) (Qabs d).
Proof.
  intros (_ & Hle & _) Hlt. split; [|split].
  - exists d. split; [by apply list_lookup_middle|reflexivity].
  - intros i d' [[_ Hi]|[_ <-]]%lookup_snoc_Some; [|lra].
    specialize (Hle _ _ Hi). lra.
  - intros i d' Hi [[_ Hd]|[? _]]%lookup_snoc_Some; [|lia].
    specialize (Hle _ _ Hd). lra.
Qed.

(** One that is not larger leaves the first maximum where it was. *)
Lemma IsFirstMax_snoc_le ds p m d :
  IsFirstMax ds p m -> (Qabs d <= m)%Q -> IsFirstMax (ds ++ [d]) p m.
Proof.
  intros ((d0 & Hd0 & Hm) & Hle & Hfirst) Hd. split; [|split].
  - exists d0. split; [|done]. rewrite lookup_app_l; [done|].
    by eapply lookup_lt_Some.
  - intros i d' [[_ Hi]|[_ <-]]%lookup_snoc_Some; [by eapply Hle|done].
  - intros i d' Hi Hd'. apply (Hfirst i); [done|].
    rewrite lookup_app_l in Hd'; [done|].
    apply lookup_lt_Some in Hd0. lia.
Qed.

Lemma qLoop_noise s0 n0 ps :
  (qNoise (qLoop s0 n0 ps) == n0 + sumSq (sampleDiffs ps))%Q.
Proof.
  induction ps as [|[x r] ps IH] using rev_ind; [simpl; lra|].
  rewrite qLoop_snoc, sampleDiffs_snoc, sumSq_app. cbn [qStep qNoise].
  rewrite IH. simpl. lra.
Qed.

Lemma qLoop_signal s0 n0 ps :
  (qSignal (qLoop s0 n0 ps) == s0 + sumSq (snd <$> ps))%Q.
Proof.
  induction ps as [|[x r] ps IH] using rev_ind; [simpl; lra|].
  rewrite qLoop_snoc, fmap_app, sumSq_app. cbn [qStep qSignal].
  rewrite IH. simpl. lra.
Qed.

Lemma qLoop_count s0 n0 ps :
  qCount (qLoop s0 n0 ps) = countPositive (sampleDiffs ps).
Proof.
  induction ps as [|[x r] ps IH] using rev_ind; [done|].
  rewrite qLoop_snoc, sampleDiffs_snoc. unfold countPositive in *.
  rewrite filter_app, length_app, <- IH. cbn [qStep qCount].
  rewrite filter_cons, filter_nil. qcase 0%Q (x - r)%Q; case_decide; simpl; lia || lra.
Qed.

(** Before the first sample the sentinels [-1] are in place; after it the
    position is the first maximum of the absolute differences. *)
Lemma qLoop_max s0 n0 ps :
  (ps = [] /\ qMax (qLoop s0 n0 ps) = (-1)%Q /\ qPos (qLoop s0 n0 ps) = (-1)%Z) \/
  exists p, qPos (qLoop s0 n0 ps) = Z.of_nat p /\
            IsFirstMax (sampleDiffs ps) p (qMax (qLoop s0 n0 ps)).
Proof.
  induction ps as [|[x r] ps IH] using rev_ind; [by left|right].
  rewrite qLoop_snoc, sampleDiffs_snoc. cbn [qStep qMax qPos].
  destruct IH as [(-> & -> & ->) | (p & Hp & Hmax)].
  - exists 0%nat. pose proof (Qabs_nonneg (x - r)).
    qcase (-1)%Q (Qabs (x - r)); [lra| |lra]. split; [done|apply IsFirstMax_single].
  - qcase (qMax (qLoop s0 n0 ps)) (Qabs (x - r)).
    + exists p. split; [done|]. apply IsFirstMax_snoc_le; [done|lra].
    + exists (length ps). rewrite <- (length_sampleDiffs ps). split; [done|].
      by eapply IsFirstMax_snoc_gt.
    + exists p. split; [done|]. apply IsFirstMax_snoc_le; [done|lra].
Qed.

(** ** Properties of the comparison loop *)

(** The loop keeps the accumulators non-negative, whatever the samples. *)
Lemma checkLoop_PowersOK (reference : RefChannel) (xs : list num) (p : Powers) :
  PowersOK p -> PowersOK (powers (checkLoop reference xs p)).
Proof.
  intros Hp. unfold checkLoop.
  apply (ifold_invariant0 _ (fun _ st => PowersOK (powers st))); [done|].
  intros i x st _ [Hs Hn]. split; by apply num_nonneg_add_sq.
Qed.

(** The loop reads [reference] only below the rendered length. *)
Lemma checkLoop_reference_prefix (rs extra xs : list num) (p : Powers) :
  length xs <= length rs ->
  checkLoop (RefLoaded (rs ++ extra)) xs p = checkLoop (RefLoaded rs) xs p.
Proof.
  intros Hlen. unfold checkLoop. apply ifold_ext.
  intros i x st Hx _. rewrite Nat.sub_0_r in Hx. apply lookup_lt_Some in Hx.
  unfold checkStep. cbn [refIndex]. rewrite lookup_app_l by lia. done.
Qed.

(** NaN in the accumulators after a frame with no reference sample. *)
Lemma checkLoop_NaN_after_missing (reference : RefChannel) (xs : list num)
    (p : Powers) (k : nat) :
  k < length xs -> refIndex reference k = None ->
  noisePower (powers (checkLoop reference xs p)) = NaN /\
  signalPower (powers (checkLoop reference xs p)) = NaN.
Proof.
  intros Hk Hnone. revert Hk. unfold checkLoop.
  apply (ifold_invariant0 _ (fun i st => k < i ->
    noisePower (powers st) = NaN /\ signalPower (powers st) = NaN)); [lia|].
  intros i x st _ IH Hki. unfold checkStep. cbn [powers noisePower signalPower].
  destruct (decide (k = i)) as [<-|Hne].
  - rewrite Hnone. cbn [toNumber]. by autorewrite with oscrw.
  - destruct IH as [-> ->]; [lia|]. by autorewrite with oscrw.
Qed.

Lemma sampleDiffs_zip_fmap (f : Q -> Q) (rs : list Q) :
  sampleDiffs (zip (f <$> rs) rs) = (fun x => f x - x)%Q <$> rs.
Proof.
  unfold sampleDiffs. rewrite (zip_with_fmap_l pair f rs rs), zip_with_diag, <- list_fmap_compose.
  done.
Qed.

Lemma sampleDiffs_zip_diag (xs : list Q) :
  sampleDiffs (zip xs xs) = (fun x => x - x)%Q <$> xs.
Proof.
  pose proof (sampleDiffs_zip_fmap id xs) as H. by rewrite list_fmap_id in H.
Qed.

Lemma sumSq_self_diffs (xs : list Q) : (sumSq ((fun x => x - x)%Q <$> xs) == 0)%Q.
Proof.
  induction xs as [|x xs IH]; [reflexivity|]. unfold sumSq in *. simpl.
  rewrite IH. ring.
Qed.

Lemma countPositive_nonpos (ds : list Q) :
  Forall (fun d => d <= 0)%Q ds -> countPositive ds = 0.
Proof.
  induction 1 as [|d ds Hd _ IH]; [done|]. unfold countPositive in *.
  rewrite filter_cons. case_decide; [lra|done].
Qed.

Lemma countPositive_app (l1 l2 : list Q) :
  countPositive (l1 ++ l2) = countPositive l1 + countPositive l2.
Proof. unfold countPositive. by rewrite filter_app, length_app. Qed.

(** A list whose absolute values are all equal has its first maximum at 0. *)
Lemma IsFirstMax_const (ds : list Q) (d0 : Q) p m :
  ds !! 0 = Some d0 -> (forall i d, ds !! i = Some d -> (Qabs d == Qabs d0)%Q) ->
  IsFirstMax ds p m -> p = 0 /\ (m == Qabs d0)%Q.
Proof.
  intros H0 Hall ((d & Hd & Hm) & _ & Hfirst). specialize (Hall _ _ Hd).
  destruct p as [|p].
  - split; [done|]. rewrite H0 in Hd. injection Hd as ->. by symmetry.
  - exfalso. specialize (Hfirst 0 d0 ltac:(lia) H0). lra.
Qed.

(** A single non-zero value among zeros is the first maximum. *)
Lemma IsFirstMax_spike (A B : list Q) (d : Q) p m :
  Forall (fun x => Qabs x == 0)%Q A -> Forall (fun x => Qabs x == 0)%Q B ->
  (0 < Qabs d)%Q -> IsFirstMax (A ++ d :: B) p m -> p = length A /\ (m == Qabs d)%Q.
Proof.
  intros HA HB Hd ((dp & Hdp & Hm) & Hle & _).
  pose proof (Hle (length A) d ltac:(by apply list_lookup_middle)) as Hdm.
  apply lookup_app_Some in Hdp as [Hdp|[Hlen Hdp]].
  - exfalso. pose proof (Forall_lookup_1 _ _ _ _ HA Hdp) as H0; simpl in H0. lra.
  - destruct (p - length A) as [|j] eqn:E; simpl in Hdp.
    + injection Hdp as ->. split; [lia|by symmetry].
    + exfalso. pose proof (Forall_lookup_1 _ _ _ _ HB Hdp) as H0; simpl in H0. lra.
Qed.

Lemma snd_zip_take (xs rs : list Q) :
  length xs <= length rs -> snd <$> zip xs rs = take (length xs) rs.
Proof.
  intros Hlen. rewrite <- (zip_with_take_r pair xs rs). apply snd_zip.
  rewrite length_take. lia.
Qed.

Lemma Qabs_self_diff (x : Q) : (Qabs (x - x) == 0)%Q.
Proof. rewrite Qabs_wd by (unfold Qminus; apply Qplus_opp_r). reflexivity. Qed.

Lemma sampleDiffs_spike (l1 l2 : list Q) (a r : Q) :
  sampleDiffs (zip (l1 ++ a :: l2) (l1 ++ r :: l2)) =
  ((fun x => x - x)%Q <$> l1) ++ (a - r)%Q :: ((fun x => x - x)%Q <$> l2).
Proof.
  rewrite (zip_with_app pair l1 (a :: l2) l1 (r :: l2) eq_refl).
  unfold sampleDiffs. rewrite fmap_app.
  fold (zip l1 l1). rewrite <- sampleDiffs_zip_diag. simpl.
  fold (zip l2 l2). by rewrite <- sampleDiffs_zip_diag.
Qed.

Lemma self_diffs_nonpos (xs : list Q) : Forall (fun d => d <= 0)%Q ((fun x => x - x)%Q <$> xs).
Proof. apply Forall_fmap, Forall_forall. intros x _. simpl. lra. Qed.

Lemma self_diffs_abs (xs : list Q) : Forall (fun d => Qabs d == 0)%Q ((fun x => x - x)%Q <$> xs).
Proof. apply Forall_fmap, Forall_forall. intros x _. apply Qabs_self_diff. Qed.

(** Rewrite a loop on finite samples into the rational loop. *)
Ltac loop_embed :=
  rewrite checkLoop_embed by (rewrite ?length_app, ?length_fmap; simpl; lia);
  cbn [embedQ noisePower signalPower powers diffCount maxError errorPosition].

(** The maximum part of [qLoop_max] on a non-empty run. *)
Lemma qLoop_max_nonempty s0 n0 ps :
  ps <> [] ->
  exists p, qPos (qLoop s0 n0 ps) = Z.of_nat p /\
            IsFirstMax (sampleDiffs ps) p (qMax (qLoop s0 n0 ps)).
Proof. intros Hne. by destruct (qLoop_max s0 n0 ps) as [[? _]|?]. Qed.

Lemma zip_nonempty {A B} (xs : list A) (ys : list B) :
  xs <> [] -> length xs <= length ys -> zip xs ys <> [].
Proof. destruct xs, ys; simpl; [done|done|lia|done]. Qed.

(** The loop on identical finite samples. *)
Lemma checkLoop_identical (xs extra : list Q) (s0 n0 : Q) :
  xs <> [] ->
  let st := checkLoop (RefLoaded (Fin <$> xs ++ extra)) (Fin <$> xs)
              (mkPowers (Fin s0) (Fin n0)) in
  noisePower (powers st) ≡ Fin n0 /\ signalPower (powers st) ≡ Fin (s0 + sumSq xs) /\
  diffCount st = 0 /\ maxError st ≡ Fin 0 /\ errorPosition st = 0%Z.
Proof.
  intros Hne st. subst st.
  rewrite fmap_app, checkLoop_reference_prefix by (rewrite !length_fmap; lia).
  loop_embed. split; [|split; [|split]].
  - apply Fin_equiv. rewrite qLoop_noise, sampleDiffs_zip_diag, sumSq_self_diffs. ring.
  - apply Fin_equiv. rewrite qLoop_signal, snd_zip by lia. reflexivity.
  - rewrite qLoop_count, sampleDiffs_zip_diag. apply countPositive_nonpos, self_diffs_nonpos.
  - destruct (qLoop_max_nonempty s0 n0 (zip xs xs)) as (p & Hp & Hmax).
    { by apply zip_nonempty. }
    rewrite sampleDiffs_zip_diag in Hmax. destruct xs as [|x0 xs']; [done|].
    apply (IsFirstMax_const _ (x0 - x0)%Q) in Hmax as [-> Hm]; [|done|].
    + split; [|by rewrite Hp]. apply Fin_equiv. rewrite Hm. apply Qabs_self_diff.
    + intros i d Hd. apply (Forall_lookup_1 _ _ _ _ (self_diffs_abs _)) in Hd.
      simpl in Hd. rewrite Hd. by rewrite Qabs_self_diff.
Qed.


Lemma countPositive_cons (d : Q) (ds : list Q) :
  countPositive (d :: ds) = (if decide (0 < d)%Q then 1 else 0) + countPositive ds.
Proof. unfold countPositive. rewrite filter_cons. by case_decide. Qed.

Lemma Qabs_offset_diff (x : Q) : (Qabs (x - 1 - x) == 1)%Q.
Proof. rewrite (Qabs_wd (x - 1 - x) (-1)) by ring. reflexivity. Qed.

Lemma sumSq_nonneg (xs : list Q) : (0 <= sumSq xs)%Q.
Proof. induction xs as [|x xs IH]; unfold sumSq in *; simpl; [lra|nra]. Qed.

Lemma sumSq_pos (xs : list Q) : (exists x, x ∈ xs /\ ~ (x == 0)%Q) -> (0 < sumSq xs)%Q.
Proof.
  intros (x & Hx & Hnz). induction Hx as [y ys|y z ys _ IH]; unfold sumSq in *; simpl.
  - pose proof (sumSq_nonneg ys). unfold sumSq in *.
    destruct (Qlt_le_dec y 0); [nra|]. destruct (Qlt_le_dec 0 y); [nra|].
    exfalso. apply Hnz. lra.
  - nra.
Qed.

Lemma Qdiv_antitone (s n1 n2 : Q) :
  (0 < s)%Q -> (0 < n1)%Q -> (n1 <= n2)%Q -> (s / n2 <= s / n1)%Q.
Proof.
  intros Hs Hn1 Hn. apply Qle_shift_div_l; [done|].
  assert (Hq : (s / n2 * n2 == s)%Q) by (field; lra).
  assert (0 < s / n2)%Q by (apply Qlt_shift_div_l; lra).
  nra.
Qed.

#[export] Instance calculateSNR_proper `{Log10} : Proper ((≡) ==> (≡) ==> (≡)) calculateSNR.
Proof. intros a a' Ha b b' Hb. unfold calculateSNR. by rewrite Ha, Hb. Qed.

(** [calculateSNR] with a zero noise power: [+Infinity] for a positive
    signal power, NaN ([0 / 0]) for a zero one. *)
Lemma calculateSNR_zero_noise `{Log10} (s : Q) : (0 < s)%Q -> calculateSNR (Fin s) (Fin 0) = PInf.
Proof.
  intros Hs. unfold calculateSNR, num_div. change ((0 ?= 0)%Q) with Eq.
  unfold inf_by_sign. destruct (Qcompare_spec s 0); [lra|lra|reflexivity].
Qed.

Lemma calculateSNR_zero_zero `{Log10} : calculateSNR (Fin 0) (Fin 0) = NaN.
Proof. reflexivity. Qed.

Lemma calculateSNR_pos `{Log10} (s n : Q) :
  (0 < s)%Q -> (0 < n)%Q -> calculateSNR (Fin s) (Fin n) = Fin (10 * log10 (s / n)).
Proof.
  intros Hs Hn. unfold calculateSNR, num_div. destruct (Qcompare_spec n 0); [lra|lra|].
  assert ((0 < s / n)%Q) by (apply Qlt_shift_div_l; lra).
  unfold num_log10. destruct (Qcompare_spec (s / n) 0); [lra|lra|reflexivity].
Qed.


Lemma sumSq_zeros (n : nat) : (sumSq (replicate n 0%Q) == 0)%Q.
Proof. induction n as [|n IH]; unfold sumSq in *; simpl; [reflexivity|rewrite IH; reflexivity]. Qed.

(** C1. Refinement: on finite samples with a reference at least as long
    as the rendered channel, the loop of [checkResult] computes the noise
    power (initial value plus the sum of squared differences), the signal
    power (initial value plus the sum of squared reference samples it
    visits), the number of strictly positive differences, and either the
    sentinels [-1] (no sample) or the first position of the largest absolute
    difference together with that value. *)
Theorem checkLoop_refines (xs rs : list Q) (s0 n0 : Q) :
  length xs <= length rs ->
  let st := checkLoop (RefLoaded (Fin <$> rs)) (Fin <$> xs) (mkPowers (Fin s0) (Fin n0)) in
  let ds := sampleDiffs (zip xs rs) in
  noisePower (powers st) ≡ Fin (n0 + sumSq ds) /\
  signalPower (powers st) ≡ Fin (s0 + sumSq (take (length xs) rs)) /\
  diffCount st = countPositive ds /\
  ((xs = [] /\ maxError st = Fin (-1) /\ errorPosition st = (-1)%Z) \/
   exists p m, errorPosition st = Z.of_nat p /\ maxError st = Fin m /\ IsFirstMax ds p m).
Proof.
  intros Hlen st ds. subst st ds. rewrite checkLoop_embed by done.
  cbn [embedQ noisePower signalPower powers diffCount maxError errorPosition].
  split; [apply Fin_equiv, qLoop_noise|]. split.
  { apply Fin_equiv. rewrite qLoop_signal, snd_zip_take by done. reflexivity. }
  split; [apply qLoop_count|].
  destruct (qLoop_max s0 n0 (zip xs rs)) as [(Hnil & -> & ->)|(p & Hp & Hm)].
  - left. split; [|done]. apply (f_equal length) in Hnil.
    rewrite length_zip_with_l in Hnil by done. by destruct xs.
  - right. by exists p, (qMax (qLoop s0 n0 (zip xs rs))).
Qed.

Lemma checkLoop_refines_witness :
  let st := checkLoop (RefLoaded (Fin <$> [1; 1; 1; 1]%Q)) (Fin <$> [1; 1; 1; 2]%Q)
              (mkPowers (Fin 0) (Fin 0)) in
  let ds := sampleDiffs (zip [1; 1; 1; 2]%Q [1; 1; 1; 1]%Q) in
  noisePower (powers st) ≡ Fin (0 + sumSq ds) /\
  signalPower (powers st) ≡ Fin (0 + sumSq (take (length [1; 1; 1; 2]%Q) [1; 1; 1; 1]%Q)) /\
  diffCount st = countPositive ds /\
  (([1; 1; 1; 2]%Q = [] /\ maxError st = Fin (-1) /\ errorPosition st = (-1)%Z) \/
   exists p m, errorPosition st = Z.of_nat p /\ maxError st = Fin m /\ IsFirstMax ds p m).
Proof. apply checkLoop_refines. simpl. lia. Defined.

(** C5. The loop reads the reference only at the indices of the rendered
    channel: samples of the reference past the rendered length are ignored,
    so a rendered buffer shorter than the reference is compared with a
    prefix of it and no length error is raised. *)
Theorem checkLoop_reference_extension (rs extra xs : list num) (p : Powers) :
  length xs <= length rs ->
  checkLoop (RefLoaded (rs ++ extra)) xs p = checkLoop (RefLoaded rs) xs p.
Proof. apply checkLoop_reference_prefix. Qed.

Lemma checkLoop_reference_extension_witness :
  checkLoop (RefLoaded ([Fin 1] ++ [Fin 7])) [Fin 1] initialPowers =
  checkLoop (RefLoaded [Fin 1]) [Fin 1] initialPowers.
Proof. apply checkLoop_reference_extension. simpl. lia. Defined.

(** C6. Bounds, for every input (NaN, infinities, missing reference
    samples included): the count of positive differences never exceeds
    the number of frames, and either no difference was ever recorded
    ([errorPosition = -1] and [maxError = -1]) or [errorPosition] is a
    valid frame index and [maxError] is a non-negative number. *)
Theorem checkLoop_bounds (reference : RefChannel) (xs : list num) (p : Powers) :
  let st := checkLoop reference xs p in
  diffCount st <= length xs /\
  ((errorPosition st = (-1)%Z /\ maxError st = Fin (-1)) \/
   ((0 <= errorPosition st < Z.of_nat (length xs))%Z /\ num_le (Fin 0) (maxError st) = true)).
Proof.
  unfold checkLoop.
  apply (ifold_invariant0 _ (fun i st => diffCount st <= i /\
    ((errorPosition st = (-1)%Z /\ maxError st = Fin (-1)) \/
     ((0 <= errorPosition st < Z.of_nat i)%Z /\ num_le (Fin 0) (maxError st) = true)))).
  { split; [simpl; lia|by left]. }
  intros i x st _ [Hc Hpos]. unfold checkStep. cbn [diffCount errorPosition maxError].
  split; [case_match; lia|].
  destruct (num_gt (num_abs _) (maxError st)) eqn:Hbetter.
  - right. split; [lia|]. apply num_abs_nonneg. by eapply num_gt_not_NaN_l.
  - destruct Hpos as [?|[? ?]]; [by left|right]. split; [lia|done].
Qed.

(** C7. A rendered frame with no reference sample ([reference] still the
    initial number [0], or a reference shorter than the rendered channel)
    makes both accumulated powers NaN: [undefined] turns the difference
    and the square of the reference sample into NaN, and NaN absorbs every
    later addition. *)
Theorem checkLoop_missing_reference_NaN (reference : RefChannel) (xs : list num)
    (p : Powers) (k : nat) :
  k < length xs -> refIndex reference k = None ->
  noisePower (powers (checkLoop reference xs p)) = NaN /\
  signalPower (powers (checkLoop reference xs p)) = NaN.
Proof. apply checkLoop_NaN_after_missing. Qed.

Lemma checkLoop_missing_reference_NaN_witness :
  (0 < length [Fin 1])%nat /\ refIndex RefInitial 0 = None /\
  noisePower (powers (checkLoop RefInitial [Fin 1] initialPowers)) = NaN /\
  signalPower (powers (checkLoop RefInitial [Fin 1] initialPowers)) = NaN.
Proof.
  split; [simpl; lia|]. split; [reflexivity|].
  apply (checkLoop_missing_reference_NaN RefInitial [Fin 1] initialPowers 0); [simpl; lia|reflexivity].
Defined.

(** The maximum absolute difference is never NaN: it starts at [-1] and
    is replaced only by a value that compares greater, hence not NaN. *)
Lemma checkLoop_maxError_not_NaN reference xs p : maxError (checkLoop reference xs p) <> NaN.
Proof.
  unfold checkLoop.
  apply (ifold_invariant0 _ (fun _ st => maxError st <> NaN)); [done|].
  intros i x st _ Hst. unfold checkStep. cbn [maxError].
  destruct (num_gt (num_abs _) (maxError st)) eqn:Hb; [|done].
  intros Hn. apply num_gt_not_NaN_l in Hb. by rewrite Hn in Hb.
Qed.

(** C2. The three comparisons are inclusive: a metric equal to its
    threshold passes ([beGreaterThanOrEqualTo], [beLessThanOrEqualTo]).
    Setting the thresholds to the run's own SNR, maximum difference and
    count of positive differences, [checkResult] reports assertions that
    all pass (whenever the SNR is a number).  The comments at lines 37, 43
    and 46-47 say the SNR must be greater than its threshold and the
    maximum difference and the count less than theirs; under those
    strict comparisons this run would fail all three. *)
Theorem checkResult_ties_pass `{Log10} (reference : RefChannel) (p : Powers)
    (download : AudioBuffer -> string -> bool) (buf : AudioBuffer) (oscType : string)
    (data : list num) :
  getChannelData buf 0 = Some data ->
  calculateSNR (signalPower (powers (checkLoop reference data p)))
               (noisePower (powers (checkLoop reference data p))) <> NaN ->
  exists out,
    checkResult (mkThresholds (calculateSNR (signalPower (powers (checkLoop reference data p)))
                                            (noisePower (powers (checkLoop reference data p))))
                              (maxError (checkLoop reference data p))
                              (num_of_nat (diffCount (checkLoop reference data p))))
                reference p download buf oscType = Some out /\
    3 <= length (outAssertions out) /\ allPass (outAssertions out) = true.
Proof.
  intros Hch Hsnr. unfold checkResult. rewrite Hch. eexists. split; [reflexivity|].
  cbn [outAssertions]. split; [cbn; lia|].
  unfold allPass. rewrite forallb_app. cbn [forallb assertionPasses thresholdSNR thresholdDiff
    thresholdDiffCount]. unfold num_ge.
  rewrite !num_le_refl by (done || apply checkLoop_maxError_not_NaN).
  by destruct (download _ _).
Qed.

Lemma checkResult_ties_pass_witness :
  getChannelData (mkAudioBuffer [[Fin 1]]) 0 = Some [Fin 1] /\
  @calculateSNR pade_Log10 (signalPower (powers (checkLoop (RefLoaded [Fin 1]) [Fin 1] initialPowers)))
               (noisePower (powers (checkLoop (RefLoaded [Fin 1]) [Fin 1] initialPowers))) <> NaN /\
  exists out,
    @checkResult pade_Log10
      (mkThresholds (@calculateSNR pade_Log10 (signalPower (powers (checkLoop (RefLoaded [Fin 1]) [Fin 1] initialPowers)))
                                   (noisePower (powers (checkLoop (RefLoaded [Fin 1]) [Fin 1] initialPowers))))
                    (maxError (checkLoop (RefLoaded [Fin 1]) [Fin 1] initialPowers))
                    (num_of_nat (diffCount (checkLoop (RefLoaded [Fin 1]) [Fin 1] initialPowers))))
      (RefLoaded [Fin 1]) initialPowers (fun _ _ => true) (mkAudioBuffer [[Fin 1]]) "sine" = Some out /\
    3 <= length (outAssertions out) /\ allPass (outAssertions out) = true.
Proof.
  assert (Hs : @calculateSNR pade_Log10 (signalPower (powers (checkLoop (RefLoaded [Fin 1]) [Fin 1] initialPowers)))
               (noisePower (powers (checkLoop (RefLoaded [Fin 1]) [Fin 1] initialPowers))) <> NaN)
    by (vm_compute; discriminate).
  split; [reflexivity|]. split; [exact Hs|].
  apply (@checkResult_ties_pass pade_Log10); [reflexivity|exact Hs].
Defined.

Lemma calculateSNR_NaN_r `{Log10} (s : num) : calculateSNR s NaN = NaN.
Proof. unfold calculateSNR. by rewrite num_div_NaN_r. Qed.

(** C3. The code has no length check.  When some rendered frame has no
    reference sample (a reference shorter than the rendered channel, or
    none loaded), [checkResult] raises no error: it completes, its SNR is
    NaN, and the SNR assertion fails whatever the thresholds. *)
Theorem checkResult_missing_reference_fails `{Log10} (th : Thresholds)
    (reference : RefChannel) (p : Powers) (download : AudioBuffer -> string -> bool)
    (buf : AudioBuffer) (oscType : string) (data : list num) (k : nat) :
  getChannelData buf 0 = Some data -> k < length data -> refIndex reference k = None ->
  exists out, checkResult th reference p download buf oscType = Some out /\
    outSNR out = NaN /\ allPass (outAssertions out) = false.
Proof.
  intros Hch Hk Hnone. unfold checkResult. rewrite Hch. eexists. split; [reflexivity|].
  cbn [outSNR outAssertions].
  destruct (checkLoop_NaN_after_missing reference data p k Hk Hnone) as [-> _].
  rewrite calculateSNR_NaN_r. split; [done|]. unfold allPass.
  cbn [forallb app assertionPasses]. unfold num_ge at 1. by rewrite num_le_NaN_r.
Qed.

Lemma checkResult_missing_reference_fails_witness :
  getChannelData (mkAudioBuffer [[Fin 1; Fin 1]]) 0 = Some [Fin 1; Fin 1] /\
  (1 < length [Fin 1; Fin 1])%nat /\ refIndex (RefLoaded [Fin 1]) 1 = None /\
  exists out, @checkResult pade_Log10 defaultThresholds (RefLoaded [Fin 1]) initialPowers
                (fun _ _ => false) (mkAudioBuffer [[Fin 1; Fin 1]]) "sine" = Some out /\
    outSNR out = NaN /\ allPass (outAssertions out) = false.
Proof.
  split; [reflexivity|]. split; [simpl; lia|]. split; [reflexivity|].
  apply (@checkResult_missing_reference_fails pade_Log10 _ _ _ _ _ _ [Fin 1; Fin 1] 1);
    [reflexivity|simpl; lia|reflexivity].
Defined.

(** C4. A perfect match: when the rendered samples equal the reference
    (which may be longer), the noise power is unchanged, the signal power
    grows by the sum of squares of the samples, no difference is counted,
    and the maximum difference is 0, found at frame 0. *)
Theorem checkLoop_perfect_match (xs extra : list Q) (s0 n0 : Q) :
  xs <> [] ->
  let st := checkLoop (RefLoaded (Fin <$> xs ++ extra)) (Fin <$> xs)
              (mkPowers (Fin s0) (Fin n0)) in
  noisePower (powers st) ≡ Fin n0 /\ signalPower (powers st) ≡ Fin (s0 + sumSq xs) /\
  diffCount st = 0 /\ maxError st ≡ Fin 0 /\ errorPosition st = 0%Z.
Proof. apply checkLoop_identical. Qed.

Lemma checkLoop_perfect_match_witness :
  [1; 2]%Q <> [] /\
  let st := checkLoop (RefLoaded (Fin <$> [1; 2]%Q ++ [3]%Q)) (Fin <$> [1; 2]%Q)
              (mkPowers (Fin 0) (Fin 0)) in
  noisePower (powers st) ≡ Fin 0 /\ signalPower (powers st) ≡ Fin (0 + sumSq [1; 2]%Q) /\
  diffCount st = 0 /\ maxError st ≡ Fin 0 /\ errorPosition st = 0%Z.
Proof. split; [done|]. apply checkLoop_perfect_match. done. Defined.

(** C8. One rendered sample above its reference sample by [eps > 0], all
    others equal: exactly one difference is counted, and the maximum
    difference is [eps], at that frame. *)
Theorem checkLoop_single_positive_deviation (l1 l2 : list Q) (r eps s0 n0 : Q) :
  (0 < eps)%Q ->
  let st := checkLoop (RefLoaded (Fin <$> l1 ++ r :: l2))
              (Fin <$> l1 ++ (r + eps)%Q :: l2) (mkPowers (Fin s0) (Fin n0)) in
  diffCount st = 1 /\ errorPosition st = Z.of_nat (length l1) /\ maxError st ≡ Fin eps.
Proof.
  intros Heps st. subst st. loop_embed.
  assert (Habs : (Qabs (r + eps - r) == eps)%Q) by (rewrite Qabs_pos; [ring|lra]).
  split.
  - rewrite qLoop_count, sampleDiffs_spike, countPositive_app, countPositive_cons.
    rewrite !countPositive_nonpos by apply self_diffs_nonpos.
    case_decide; [done|lra].
  - destruct (qLoop_max_nonempty s0 n0 (zip (l1 ++ (r + eps)%Q :: l2) (l1 ++ r :: l2)))
      as (p & Hp & Hmax).
    { apply zip_nonempty; [by destruct l1|rewrite !length_app; simpl; lia]. }
    rewrite sampleDiffs_spike in Hmax.
    apply IsFirstMax_spike in Hmax as [Hp' Hm];
      [|apply self_diffs_abs|apply self_diffs_abs|rewrite Habs; lra].
    rewrite length_fmap in Hp'. split; [by rewrite Hp, Hp'|].
    apply Fin_equiv. by rewrite Hm.
Qed.

Lemma checkLoop_single_positive_deviation_witness :
  (0 < 1 # 4)%Q /\
  let st := checkLoop (RefLoaded (Fin <$> [1; 2]%Q ++ 3%Q :: [4]%Q))
              (Fin <$> [1; 2]%Q ++ (3 + (1 # 4))%Q :: [4]%Q) (mkPowers (Fin 0) (Fin 0)) in
  diffCount st = 1 /\ errorPosition st = Z.of_nat (length [1; 2]%Q) /\ maxError st ≡ Fin (1 # 4).
Proof. split; [reflexivity|]. apply checkLoop_single_positive_deviation. reflexivity. Defined.

(** C9. Only strictly positive differences are counted: a rendered channel
    that is uniformly 1 below the reference counts no difference, although
    its maximum absolute difference is 1 (first reached at frame 0). *)
Theorem checkLoop_negative_offset (rs : list Q) (s0 n0 : Q) :
  rs <> [] ->
  let st := checkLoop (RefLoaded (Fin <$> rs)) (Fin <$> ((fun r => r - 1)%Q <$> rs))
              (mkPowers (Fin s0) (Fin n0)) in
  diffCount st = 0 /\ maxError st ≡ Fin 1 /\ errorPosition st = 0%Z.
Proof.
  intros Hne st. subst st. loop_embed. split.
  - rewrite qLoop_count, sampleDiffs_zip_fmap. apply countPositive_nonpos.
    apply Forall_fmap, Forall_forall. intros x _. simpl. lra.
  - destruct (qLoop_max_nonempty s0 n0 (zip ((fun r => r - 1)%Q <$> rs) rs)) as (p & Hp & Hmax).
    { apply zip_nonempty; [by destruct rs|rewrite length_fmap; lia]. }
    rewrite sampleDiffs_zip_fmap in Hmax. destruct rs as [|r0 rs']; [done|].
    apply (IsFirstMax_const _ (r0 - 1 - r0)%Q) in Hmax as [-> Hm]; [|done|].
    + split; [|by rewrite Hp]. apply Fin_equiv. rewrite Hm. apply Qabs_offset_diff.
    + intros i d (x & -> & _)%list_lookup_fmap_Some.
      by rewrite !Qabs_offset_diff.
Qed.

Lemma checkLoop_negative_offset_witness :
  [2; 3]%Q <> [] /\
  let st := checkLoop (RefLoaded (Fin <$> [2; 3]%Q)) (Fin <$> ((fun r => r - 1)%Q <$> [2; 3]%Q))
              (mkPowers (Fin 0) (Fin 0)) in
  diffCount st = 0 /\ maxError st ≡ Fin 1 /\ errorPosition st = 0%Z.
Proof. split; [done|]. apply checkLoop_negative_offset. done. Defined.

(** C10. With a zero noise power and a positive signal power (a perfect
    match of a non-silent signal) the SNR is [+Infinity], not a division
    error, and the SNR assertion passes for every finite threshold. *)
Theorem calculateSNR_zero_noise_passes `{Log10} (s t : Q) (label : string) :
  (0 < s)%Q ->
  calculateSNR (Fin s) (Fin 0) = PInf /\
  assertionPasses (Should (calculateSNR (Fin s) (Fin 0)) label (BeGreaterThanOrEqualTo (Fin t))) = true.
Proof. intros Hs. by rewrite calculateSNR_zero_noise. Qed.

Lemma calculateSNR_zero_noise_passes_witness :
  (0 < 1)%Q /\
  @calculateSNR pade_Log10 (Fin 1) (Fin 0) = PInf /\
  assertionPasses (Should (@calculateSNR pade_Log10 (Fin 1) (Fin 0)) "SNR"
                     (BeGreaterThanOrEqualTo (Fin 10000))) = true.
Proof. split; [reflexivity|]. apply (@calculateSNR_zero_noise_passes pade_Log10). reflexivity. Defined.

(** C11. All-zero buffers of any length, compared on fresh accumulators:
    signal and noise powers are both 0, [0 / 0] is NaN, the SNR is NaN and
    the SNR assertion fails whatever its threshold: a perfect match of
    silence never passes. *)
Theorem checkResult_all_zero_fails `{Log10} (th : Thresholds)
    (download : AudioBuffer -> string -> bool) (n : nat) (oscType : string) :
  exists out, checkResult th (RefLoaded (replicate n (Fin 0))) initialPowers download
                (mkAudioBuffer [replicate n (Fin 0)]) oscType = Some out /\
    outSNR out = NaN /\ allPass (outAssertions out) = false.
Proof.
  unfold checkResult. cbn [getChannelData channels lookup list_lookup mbind option_bind].
  eexists. split; [reflexivity|]. cbn [outSNR outAssertions].
  rewrite <- (fmap_replicate Fin n 0%Q). change initialPowers with (mkPowers (Fin 0) (Fin 0)).
  rewrite checkLoop_embed by lia.
  cbn [embedQ powers signalPower noisePower].
  assert (Hsnr : calculateSNR (Fin (qSignal (qLoop 0 0 (zip (replicate n 0%Q) (replicate n 0%Q)))))
                   (Fin (qNoise (qLoop 0 0 (zip (replicate n 0%Q) (replicate n 0%Q))))) ≡ NaN).
  { rewrite <- calculateSNR_zero_zero. apply calculateSNR_proper; apply Fin_equiv.
    - rewrite qLoop_signal, snd_zip, sumSq_zeros by lia. reflexivity.
    - rewrite qLoop_noise, sampleDiffs_zip_diag, sumSq_self_diffs. reflexivity. }
  apply num_equiv_NaN in Hsnr. rewrite Hsnr. split; [done|].
  unfold allPass. cbn [forallb app assertionPasses]. unfold num_ge at 1.
  by rewrite num_le_NaN_r.
Qed.

(** C12. The SNR is antitone in the noise power: for a fixed positive
    signal power, more noise never gives a larger SNR. *)
Theorem calculateSNR_antitone `{Log10} (s n1 n2 : Q) :
  (0 < s)%Q -> (0 < n1)%Q -> (n1 <= n2)%Q ->
  num_le (calculateSNR (Fin s) (Fin n2)) (calculateSNR (Fin s) (Fin n1)) = true.
Proof.
  intros Hs Hn1 Hn. rewrite !calculateSNR_pos by lra. apply num_le_Fin.
  assert (log10 (s / n2) <= log10 (s / n1))%Q.
  { apply log10_mono; [apply Qlt_shift_div_l; lra|by apply Qdiv_antitone]. }
  lra.
Qed.

Lemma calculateSNR_antitone_witness :
  (0 < 4)%Q /\ (0 < 1)%Q /\ (1 <= 2)%Q /\
  num_le (@calculateSNR pade_Log10 (Fin 4) (Fin 2)) (@calculateSNR pade_Log10 (Fin 4) (Fin 1)) = true.
Proof.
  split; [reflexivity|]. split; [reflexivity|]. split; [discriminate|].
  apply (@calculateSNR_antitone pade_Log10); [reflexivity|reflexivity|discriminate].
Defined.

(** C13. The comment at lines 33-35 says the default thresholds make the
    test fail.  They do not when the render matches the reference: a
    non-silent perfect match on fresh accumulators has SNR [+Infinity]
    (>= 10000), maximum difference 0 (<= 0) and no positive difference
    (<= 0), so every assertion passes. *)
Theorem defaultThresholds_pass_perfect_match `{Log10} (xs : list Q)
    (download : AudioBuffer -> string -> bool) (oscType : string) :
  (exists x, x ∈ xs /\ ~ (x == 0)%Q) ->
  exists out, checkResult defaultThresholds (RefLoaded (Fin <$> xs)) initialPowers download
                (mkAudioBuffer [Fin <$> xs]) oscType = Some out /\
    allPass (outAssertions out) = true.
Proof.
  intros Hnz. assert (Hne : xs <> []) by (destruct Hnz as (x & Hx & _); intros ->; inversion Hx).
  pose proof (sumSq_pos xs Hnz) as Hpos.
  destruct (checkLoop_identical xs [] 0 0 Hne) as (Hn & Hs & Hc & Hm & _).
  rewrite app_nil_r in Hn, Hs, Hc, Hm.
  unfold checkResult. cbn [getChannelData channels lookup list_lookup mbind option_bind].
  eexists. split; [reflexivity|]. cbn [outAssertions outSNR].
  change initialPowers with (mkPowers (Fin 0) (Fin 0)).
  assert (Hsnr : calculateSNR (signalPower (powers (checkLoop (RefLoaded (Fin <$> xs)) (Fin <$> xs)
                    (mkPowers (Fin 0) (Fin 0)))))
                  (noisePower (powers (checkLoop (RefLoaded (Fin <$> xs)) (Fin <$> xs)
                    (mkPowers (Fin 0) (Fin 0))))) ≡ PInf).
  { rewrite Hs, Hn, calculateSNR_zero_noise by lra. reflexivity. }
  apply num_equiv_PInf in Hsnr. rewrite Hsnr, Hc.
  unfold allPass. cbn [forallb app assertionPasses]. rewrite Hm.
  by destruct (download _ _).
Qed.

Lemma defaultThresholds_pass_perfect_match_witness :
  (exists x, x ∈ [1%Q] /\ ~ (x == 0)%Q) /\
  exists out, @checkResult pade_Log10 defaultThresholds (RefLoaded (Fin <$> [1%Q])) initialPowers
                (fun _ _ => true) (mkAudioBuffer [Fin <$> [1%Q]]) "sine" = Some out /\
    allPass (outAssertions out) = true.
Proof.
  assert (H1 : exists x, x ∈ [1%Q] /\ ~ (x == 0)%Q) by (exists 1%Q; split; [left|discriminate]).
  split; [exact H1|]. apply (@defaultThresholds_pass_perfect_match pade_Log10). exact H1.
Defined.

End Compare.
