(* ===== verification/Sweep.v ===== *)
(** * The sweep of oscillator-testing.js: constants and audio graph

    The constants of the closure (lines 23-31) and
    [generateExponentialOscillatorSweep] (lines 61-84).  The function
    builds, in the audio context it is given, an oscillator connected
    through a gain of 0.5 to the destination, starts it at time 0 and
    schedules its frequency: 10 Hz at time 0, then an exponential ramp to
    [highFrequency] at [lengthInSeconds].

    The context is a record: the nodes created so far (a node is named by
    its position in the list) and the connections made.  The builder is a
    state-and-exception monad over it ([Build]): every Web Audio call the
    function makes is an operation of the monad, and the exceptions those
    calls can raise ([type = "custom"], starting a node twice) are the
    [None] outcome.  [contextWF] says that every connection links
    existing nodes; the builder keeps it.  The rendering engine that
    plays the graph is not modelled. *)

From S2P Require Import Prelude JsNum.
From stdpp Require Import strings.

Module Sweep.

(** ** The constants (lines 23-31) *)

Definition sampleRate : Q := 44100.
Definition nyquist : Q := (1 # 2) * sampleRate.
Definition lengthInSeconds : Q := 4.
Definition lowFrequency : Q := 10.
Definition highFrequency : Q := nyquist + 2000.
Definition waveScaleFactor : Q := 32768.

(** ** The audio context *)

Inductive OscillatorType : Type := Sine | Square | Sawtooth | Triangle | Custom.

(** A PeriodicWave: its real and imaginary Fourier coefficients. *)
Record PeriodicWave : Type := mkWave { waveReal : list Q; waveImag : list Q }.

Inductive AutomationEvent : Type :=
| SetValueAtTime (value time : Q)
| ExponentialRampToValueAtTime (value time : Q).

Record OscillatorNode : Type := mkOsc {
  oscType : OscillatorType;
  oscWave : option PeriodicWave;
  frequencyEvents : list AutomationEvent;
  startTime : option Q
}.

Inductive AudioNode : Type :=
| OscNode (o : OscillatorNode)
| GainNode (gain : Q).

Inductive Destination : Type :=
| ToNode (id : nat)
| ToDestination.

Record Context : Type := mkContext {
  nodes : list AudioNode;
  connections : list (nat * Destination)
}.

(** ** The builder monad: state passing with exceptions *)

(** A context of a fresh OfflineAudioContext: no node created yet. *)
Definition freshContext : Context := mkContext [] [].

Definition Build (A : Type) : Type := Context -> option (A * Context).

#[export] Instance Build_ret : MRet Build := fun A a c => Some (a, c).
#[export] Instance Build_bind : MBind Build :=
  fun A B f m c => match m c with Some (a, c') => f a c' | None => None end.

(** ** Web Audio operations the function calls *)

(** [context.createOscillator()]: type "sine", no wave, no automation, not started. *)
Definition createOscillator : Build nat := fun c =>
  Some (length (nodes c),
        mkContext (nodes c ++ [OscNode (mkOsc Sine None [] None)]) (connections c)).

(** [context.createGain()]: gain 1. *)
Definition createGain : Build nat := fun c =>
  Some (length (nodes c), mkContext (nodes c ++ [GainNode 1]) (connections c)).

(** [context.createPeriodicWave(real, imag)]. *)
Definition createPeriodicWave (real imag : list Q) : PeriodicWave := mkWave real imag.

(** Update the oscillator named [i]; [f] returning [None] is an exception. *)
Definition updateOscillator (i : nat) (f : OscillatorNode -> option OscillatorNode) : Build unit :=
  fun c => match nodes c !! i with
           | Some (OscNode o) =>
               match f o with
               | Some o' => Some (tt, mkContext (<[i := OscNode o']> (nodes c)) (connections c))
               | None => None
               end
           | _ => None
           end.

(** [osc.setPeriodicWave(wave)]: the type becomes "custom". *)
Definition setPeriodicWave (i : nat) (w : PeriodicWave) : Build unit :=
  updateOscillator i (fun o => Some (mkOsc Custom (Some w) (frequencyEvents o) (startTime o))).

(** The [type] setter: an enumerated attribute, so a string outside the
    enumeration is ignored; assigning "custom" throws InvalidStateError. *)
Definition setOscillatorType (s : string) (o : OscillatorNode) : option OscillatorNode :=
  let set t := Some (mkOsc t (oscWave o) (frequencyEvents o) (startTime o)) in
  if String.eqb s "sine" then set Sine
  else if String.eqb s "square" then set Square
  else if String.eqb s "sawtooth" then set Sawtooth
  else if String.eqb s "triangle" then set Triangle
  else if String.eqb s "custom" then None
  else Some o.

Definition setType (i : nat) (s : string) : Build unit := updateOscillator i (setOscillatorType s).

(** [gainNode.gain.value = v]. *)
Definition setGain (i : nat) (v : Q) : Build unit := fun c =>
  match nodes c !! i with
  | Some (GainNode _) => Some (tt, mkContext (<[i := GainNode v]> (nodes c)) (connections c))
  | _ => None
  end.

(** [a.connect(b)]. *)
Definition connect (i : nat) (d : Destination) : Build unit := fun c =>
  Some (tt, mkContext (nodes c) (connections c ++ [(i, d)])).

(** [osc.start(t)]: a second start throws InvalidStateError. *)
Definition start (i : nat) (t : Q) : Build unit :=
  updateOscillator i (fun o => match startTime o with
                               | None => Some (mkOsc (oscType o) (oscWave o) (frequencyEvents o) (Some t))
                               | Some _ => None
                               end).

Definition scheduleFrequency (i : nat) (e : AutomationEvent) : Build unit :=
  updateOscillator i (fun o => Some (mkOsc (oscType o) (oscWave o) (frequencyEvents o ++ [e]) (startTime o))).

(** [osc.frequency.setValueAtTime(v, t)]: a negative time throws RangeError. *)
Definition setValueAtTime (i : nat) (v t : Q) : Build unit := fun c =>
  if Qle_bool 0 t then scheduleFrequency i (SetValueAtTime v t) c else None.

(** [osc.frequency.exponentialRampToValueAtTime(v, t)]: a negative time or
    a zero target throws RangeError. *)
Definition exponentialRampToValueAtTime (i : nat) (v t : Q) : Build unit := fun c =>
  if Qle_bool 0 t && negb (Qeq_bool v 0)
  then scheduleFrequency i (ExponentialRampToValueAtTime v t) c else None.

(** ** [generateExponentialOscillatorSweep] (lines 61-84) *)

Definition customWave : PeriodicWave := createPeriodicWave [0; 1; 1 # 2]%Q [0; 0; 0]%Q.

Definition generateExponentialOscillatorSweep (oscillatorType : string) : Build unit :=
  osc ← createOscillator;
  (if String.eqb oscillatorType "custom"
   then setPeriodicWave osc customWave
   else setType osc oscillatorType);;
  gainNode ← createGain;
  setGain gainNode (1 # 2);;
  connect osc (ToNode gainNode);;
  connect gainNode ToDestination;;
  start osc 0;;
  setValueAtTime osc 10 0;;
  exponentialRampToValueAtTime osc highFrequency lengthInSeconds.

(** The connections of a context link existing nodes. *)
Definition contextWF (c : Context) : bool :=
  forallb (fun '(i, d) => Nat.ltb i (length (nodes c)) &&
                          match d with ToNode j => Nat.ltb j (length (nodes c)) | ToDestination => true end)
          (connections c).

(** ** Properties *)

(** The oscillator type the sweep ends with for a requested type name. *)
Definition requestedType (s : string) : OscillatorType :=
  if String.eqb s "custom" then Custom
  else if String.eqb s "square" then Square
  else if String.eqb s "sawtooth" then Sawtooth
  else if String.eqb s "triangle" then Triangle
  else Sine.

(** Evaluation of the builder: a bind after a step that succeeded, the
    setters on the node at a given position, the type setter on a new
    oscillator. *)
Lemma Build_bind_Some {A B} (m : Build A) (f : A -> Build B) c a c' :
  m c = Some (a, c') -> (m ≫= f) c = f a c'.
Proof. intros Hm. unfold mbind, Build_bind. by rewrite Hm. Qed.

Lemma updateOscillator_at (l r : list AudioNode) conns o f o' :
  f o = Some o' ->
  updateOscillator (length l) f (mkContext (l ++ OscNode o :: r) conns) =
    Some (tt, mkContext (l ++ OscNode o' :: r) conns).
Proof.
  intros Hf. unfold updateOscillator. cbn [nodes connections].
  rewrite list_lookup_middle by done. rewrite Hf.
  by rewrite insert_app_r_alt, Nat.sub_diag by lia.
Qed.

Lemma setGain_at (l r : list AudioNode) conns g v :
  setGain (length l) v (mkContext (l ++ GainNode g :: r) conns) =
    Some (tt, mkContext (l ++ GainNode v :: r) conns).
Proof.
  unfold setGain. cbn [nodes connections].
  rewrite list_lookup_middle by done.
  by rewrite insert_app_r_alt, Nat.sub_diag by lia.
Qed.

Lemma setOscillatorType_fresh s w evs st :
  String.eqb s "custom" = false ->
  setOscillatorType s (mkOsc Sine w evs st) = Some (mkOsc (requestedType s) w evs st).
Proof.
  intros Hc. unfold setOscillatorType, requestedType. rewrite Hc.
  destruct (String.eqb s "sine") eqn:E1; [apply String.eqb_eq in E1; by subst|].
  by repeat case_match.
Qed.

(** The sweep builder evaluated on any context. *)
Lemma generateSweep_eval (s : string) (c : Context) :
  let n := length (nodes c) in
  exists o,
    generateExponentialOscillatorSweep s c =
      Some (tt, mkContext (nodes c ++ [OscNode o; GainNode (1 # 2)])
                          (connections c ++ [(n, ToNode (S n)); (S n, ToDestination)])) /\
    frequencyEvents o = [SetValueAtTime lowFrequency 0;
                         ExponentialRampToValueAtTime highFrequency lengthInSeconds] /\
    startTime o = Some 0%Q /\
    oscType o = requestedType s /\
    oscWave o = (if String.eqb s "custom" then Some customWave else None).
Proof.
  intros n. destruct c as [ns cs]. cbn in n. subst n.
  unfold generateExponentialOscillatorSweep.
  destruct (String.eqb s "custom") eqn:Ec.
  all: erewrite Build_bind_Some; [|reflexivity].
  all: erewrite Build_bind_Some;
    [|apply (updateOscillator_at ns []); first [reflexivity | by apply setOscillatorType_fresh]].
  all: erewrite Build_bind_Some; [|reflexivity].
  all: cbn [nodes connections].
  all: erewrite Build_bind_Some; [|apply setGain_at].
  all: do 2 (erewrite Build_bind_Some; [|reflexivity]).
  all: rewrite <- app_assoc.
  all: erewrite Build_bind_Some; [|apply (updateOscillator_at ns); reflexivity].
  all: erewrite Build_bind_Some;
    [|unfold setValueAtTime; apply (updateOscillator_at ns); reflexivity].
  all: eexists; split;
    [etransitivity; [unfold exponentialRampToValueAtTime; apply (updateOscillator_at ns); reflexivity|];
     rewrite length_app, Nat.add_1_r; cbn [connections]; by rewrite <- app_assoc|].
  all: cbn; unfold requestedType; rewrite ?Ec; by repeat split.
Qed.

(** C14. In any audio context, [generateExponentialOscillatorSweep]
    never throws; it appends oscillator [n] (where [n] is the number of
    nodes already there) and gain node [n + 1] of gain 0.5, and connects
    the oscillator to the gain and the gain to the destination, leaving
    the nodes and connections already there untouched.  The oscillator is
    started at time 0, its frequency set to 10 Hz (= [lowFrequency],
    written as a literal at line 82) at time 0 and ramped exponentially to
    [highFrequency] = 24050 Hz, above the Nyquist frequency 22050 Hz, at
    [lengthInSeconds] = 4 s; its type is the requested one, with the
    three-coefficient PeriodicWave for "custom". *)
Theorem generateSweep_graph (s : string) (c : Context) :
  let n := length (nodes c) in
  exists o,
    generateExponentialOscillatorSweep s c =
      Some (tt, mkContext (nodes c ++ [OscNode o; GainNode (1 # 2)])
                          (connections c ++ [(n, ToNode (S n)); (S n, ToDestination)])) /\
    frequencyEvents o = [SetValueAtTime lowFrequency 0;
                         ExponentialRampToValueAtTime highFrequency lengthInSeconds] /\
    startTime o = Some 0%Q /\
    oscType o = requestedType s /\
    oscWave o = (if String.eqb s "custom" then Some customWave else None) /\
    (highFrequency == 24050)%Q /\ (nyquist == 22050)%Q /\ (nyquist < highFrequency)%Q.
Proof.
  intros n. destruct (generateSweep_eval s c) as (o & H1 & H2 & H3 & H4 & H5).
  exists o. by repeat split.
Qed.

(** Every connection links nodes that exist. *)
Lemma contextWF_spec c :
  contextWF c = true <->
  Forall (fun e => e.1 < length (nodes c) /\
                   match e.2 with ToNode j => j < length (nodes c) | ToDestination => True end)
         (connections c).
Proof.
  unfold contextWF. rewrite forallb_forall, List.Forall_forall.
  split; intros Hall [i d] Hin; specialize (Hall _ Hin); cbn [fst snd] in *;
    destruct d; rewrite ?andb_true_r, ?andb_true_iff, ?Nat.ltb_lt in *; intuition.
Qed.

(** C24. Well-formedness of the audio graph: started on a context whose
    connections all link existing nodes, the sweep builder yields a
    context with two more nodes whose connections, old and new, all link
    existing nodes. *)
Theorem generateSweep_preserves_WF (s : string) (c c' : Context) :
  contextWF c = true -> generateExponentialOscillatorSweep s c = Some (tt, c') ->
  contextWF c' = true /\ length (nodes c') = length (nodes c) + 2.
Proof.
  intros Hwf Hgen. destruct (generateSweep_eval s c) as (o & Heq & _).
  rewrite Heq in Hgen. injection Hgen as <-. cbn [nodes connections].
  rewrite length_app. cbn [length]. split; [|lia].
  apply contextWF_spec in Hwf. apply contextWF_spec. cbn [nodes connections].
  rewrite length_app. cbn [length]. apply Forall_app. split.
  - eapply Forall_impl; [exact Hwf|]. intros [i []]; cbn; lia.
  - repeat constructor; cbn; lia.
Qed.

Lemma generateSweep_preserves_WF_witness :
  contextWF (mkContext [GainNode 1] [(0, ToDestination)]) = true /\
  generateExponentialOscillatorSweep "square" (mkContext [GainNode 1] [(0, ToDestination)]) =
    Some (tt, mkContext [GainNode 1; OscNode (mkOsc Square None
              [SetValueAtTime 10 0; ExponentialRampToValueAtTime highFrequency lengthInSeconds]
              (Some 0%Q)); GainNode (1 # 2)]
            [(0, ToDestination); (1, ToNode 2); (2, ToDestination)]) /\
  (contextWF (mkContext [GainNode 1; OscNode (mkOsc Square None
              [SetValueAtTime 10 0; ExponentialRampToValueAtTime highFrequency lengthInSeconds]
              (Some 0%Q)); GainNode (1 # 2)]
            [(0, ToDestination); (1, ToNode 2); (2, ToDestination)]) = true /\
   length (nodes (mkContext [GainNode 1; OscNode (mkOsc Square None
              [SetValueAtTime 10 0; ExponentialRampToValueAtTime highFrequency lengthInSeconds]
              (Some 0%Q)); GainNode (1 # 2)]
            [(0, ToDestination); (1, ToNode 2); (2, ToDestination)])) =
   length (nodes (mkContext [GainNode 1] [(0, ToDestination)])) + 2).
Proof.
  assert (Hw : contextWF (mkContext [GainNode 1] [(0, ToDestination)]) = true) by reflexivity.
  assert (Hg : generateExponentialOscillatorSweep "square" (mkContext [GainNode 1] [(0, ToDestination)]) =
    Some (tt, mkContext [GainNode 1; OscNode (mkOsc Square None
              [SetValueAtTime 10 0; ExponentialRampToValueAtTime highFrequency lengthInSeconds]
              (Some 0%Q)); GainNode (1 # 2)]
            [(0, ToDestination); (1, ToNode 2); (2, ToDestination)])) by reflexivity.
  split; [exact Hw|]. split; [exact Hg|]. exact (generateSweep_preserves_WF _ _ _ Hw Hg).
Defined.

End Sweep.
