(* ===== verification/Harness.v ===== *)
(** * The test harness of oscillator-testing.js: closure state and pipeline

    [OscillatorTestingUtils] is a closure whose variables persist for the
    whole test page: the thresholds, the [reference] channel and the
    accumulators [signalPower] and [noisePower].  [OscState] is that state.
    [setThresholds] (lines 149-153) writes the thresholds; the exported
    object (lines 159-168) copies the constants and the initial thresholds
    when the closure runs.

    [loadReferenceAndRunTest] (lines 91-107) is a promise chain
    load -> decode -> (store the reference, build the sweep, render) ->
    check -> [task.done()].  It is modelled in [Chain], a state monad over
    the [World] (closure state, the test's audio context, the assertions
    reported so far, whether [task.done()] ran) whose result is a settled
    promise: a rejection skips every later [then] callback, and the effects
    made before it stay.  The collaborators (file loading, decoding,
    rendering, downloading) are the fields of [Env].

    [step] is the relation of the harness's operations ([setThresholds] and
    [runTest]) on the world; [reachable] its reflexive-transitive closure
    from the initial world. *)

From S2P Require Import Prelude JsNum Compare Sweep.
From stdpp Require Import strings relations.

Module Harness.
Import Compare Sweep.

(** ** The closure state (lines 21-59) *)

Record OscState : Type := mkState {
  thresholds : Thresholds;
  reference : RefChannel;
  accum : Powers
}.

Definition initialState : OscState := mkState defaultThresholds RefInitial initialPowers.

(** The argument of [setThresholds]: an object whose properties [snr],
    [maxDiff], [diffCount] may be absent ([undefined]). *)
Record ThresholdsArg : Type := mkThresholdsArg {
  argSnr : option num;
  argMaxDiff : option num;
  argDiffCount : option num
}.

(** [setThresholds] (lines 149-153).  An absent property stores
    [undefined]; the thresholds are only used as operands of [>=] and
    [<=], where [undefined] is NaN, so NaN is stored. *)
Definition setThresholds (t : ThresholdsArg) (st : OscState) : OscState :=
  mkState (mkThresholds (toNumber (argSnr t)) (toNumber (argMaxDiff t)) (toNumber (argDiffCount t)))
          (reference st) (accum st).




(** ** Promises and the world the chain runs in *)

Inductive Settled (A : Type) : Type :=
| Fulfilled (a : A)
| Rejected (reason : string).
Arguments Fulfilled {A} a.
Arguments Rejected {A} reason.

(** The bytes of a fetched file. *)
Definition ArrayBuffer : Type := list Z.

Record Env : Type := mkEnv {
  loadFileFromUrl : string -> Settled ArrayBuffer;
  decodeAudioData : ArrayBuffer -> Settled AudioBuffer;
  startRendering : Context -> Settled AudioBuffer;
  downloadAudioBuffer : AudioBuffer -> string -> bool
}.

Record World : Type := mkWorld {
  osc : OscState;
  ctx : Context;
  log : list Assertion;
  taskDone : bool
}.

Definition Chain (A : Type) : Type := World -> Settled A * World.

#[export] Instance Chain_ret : MRet Chain := fun A a w => (Fulfilled a, w).
#[export] Instance Chain_bind : MBind Chain := fun A B f m w =>
  match m w with
  | (Fulfilled a, w') => f a w'
  | (Rejected e, w') => (Rejected e, w')
  end.

(** ** The steps of the chain *)

Definition await {A} (p : Settled A) : Chain A := fun w => (p, w).

Definition throwIfNone {A} (e : string) (o : option A) : Chain A := fun w =>
  match o with Some a => (Fulfilled a, w) | None => (Rejected e, w) end.

(** [reference = audioBuffer.getChannelData(0)] (line 99). *)
Definition assignReference (ch : list num) : Chain unit := fun w =>
  (Fulfilled tt, mkWorld (mkState (thresholds (osc w)) (RefLoaded ch) (accum (osc w)))
                         (ctx w) (log w) (taskDone w)).

(** A call of the audio context's builder API; an exception rejects. *)
Definition inContext {A} (e : string) (b : Build A) : Chain A := fun w =>
  match b (ctx w) with
  | Some (a, c') => (Fulfilled a, mkWorld (osc w) c' (log w) (taskDone w))
  | None => (Rejected e, w)
  end.

Definition render (env : Env) : Chain AudioBuffer := fun w => (startRendering env (ctx w), w).

(** [checkResult(resultBuffer, should, oscType)] (line 104) on the closure
    state: it updates the accumulators and reports its assertions. *)
Definition runCheck `{Log10} (env : Env) (resultBuffer : AudioBuffer) (oscType : string) : Chain unit :=
  fun w =>
    let st := osc w in
    match checkResult (thresholds st) (reference st) (accum st) (downloadAudioBuffer env)
                      resultBuffer oscType with
    | Some out =>
        (Fulfilled tt, mkWorld (mkState (thresholds st) (reference st) (powers (outLoop out)))
                               (ctx w) (log w ++ outAssertions out) (taskDone w))
    | None => (Rejected "IndexSizeError", w)
    end.

(** [task.done()] (line 106). *)
Definition done : Chain unit := fun w =>
  (Fulfilled tt, mkWorld (osc w) (ctx w) (log w) true).

Definition referenceUrl (oscType : string) : string :=
  String.append "../Oscillator/oscillator-" (String.append oscType "-expected.wav").

(** ** [loadReferenceAndRunTest] (lines 91-107) and [runTest] (lines 155-157) *)

Definition loadReferenceAndRunTest `{Log10} (env : Env) (oscType : string) : Chain unit :=
  response ← await (loadFileFromUrl env (referenceUrl oscType));
  audioBuffer ← await (decodeAudioData env response);
  ch ← throwIfNone "IndexSizeError" (getChannelData audioBuffer 0);
  assignReference ch;;
  inContext "InvalidStateError" (generateExponentialOscillatorSweep oscType);;
  resultBuffer ← render env;
  runCheck env resultBuffer oscType;;
  done.

(** [runTest(context, oscType, description, task, should)]: the test's
    context becomes the one the chain builds in; a new task starts. *)
Definition runTest `{Log10} (env : Env) (context : Context) (oscType : string)
    (description : string) (w : World) : Settled unit * World :=
  loadReferenceAndRunTest env oscType (mkWorld (osc w) context (log w) false).

(** ** The harness as a transition system *)

Definition initialWorld : World := mkWorld initialState freshContext [] false.

Inductive step `{Log10} : World -> World -> Prop :=
| step_setThresholds (t : ThresholdsArg) (w : World) :
    step w (mkWorld (setThresholds t (osc w)) (ctx w) (log w) (taskDone w))
| step_runTest (env : Env) (context : Context) (oscType description : string) (w : World) :
    step w (snd (runTest env context oscType description w)).

Definition reachable `{Log10} (w : World) : Prop := rtc step initialWorld w.




(** ** An invariant logic for [Chain] *)

(** [m] keeps [P] true of the world, whether it fulfils or rejects. *)
Definition Preserves {A} (P : World -> Prop) (m : Chain A) : Prop :=
  forall w, P w -> P (snd (m w)).

Section Preserves.
Context (P : World -> Prop).

Lemma preserves_bind {A B} (m : Chain A) (f : A -> Chain B) :
  Preserves P m -> (forall a, Preserves P (f a)) -> Preserves P (m ≫= f).
Proof.
  intros Hm Hf w Hw. specialize (Hm w Hw). unfold mbind, Chain_bind.
  destruct (m w) as [[a|e] w']; [by apply Hf|done].
Qed.

Lemma preserves_await {A} (p : Settled A) : Preserves P (await p).
Proof. by intros w. Qed.

Lemma preserves_throwIfNone {A} e (o : option A) : Preserves P (throwIfNone e o).
Proof. intros w Hw. by destruct o. Qed.

Lemma preserves_render env : Preserves P (render env).
Proof. by intros w. Qed.
End Preserves.

#[export] Hint Resolve preserves_bind preserves_await preserves_throwIfNone preserves_render : oscdb.

(** The frame rule of the chain: a property of worlds that the store of
    [reference], the change of context, the check and [task.done()] each
    keep is kept by the whole chain, whichever step rejects. *)
Lemma preserves_chain `{Log10} (P : World -> Prop) env oscType :
  (forall ch, Preserves P (assignReference ch)) ->
  (forall w c', P w -> P (mkWorld (osc w) c' (log w) (taskDone w))) ->
  (forall buf, Preserves P (runCheck env buf oscType)) ->
  Preserves P done ->
  Preserves P (loadReferenceAndRunTest env oscType).
Proof.
  intros Ha Hc Hr Hd. unfold loadReferenceAndRunTest.
  repeat (apply preserves_bind; [first [apply preserves_await | apply preserves_throwIfNone
    | apply preserves_render | apply Ha | apply Hr | idtac] | intros ?]); [|exact Hd].
  intros w Hw. unfold inContext. destruct (generateExponentialOscillatorSweep _ _) as [[]|]; [|done].
  by apply Hc.
Qed.

(** The invariant of the accumulators, on worlds. *)
Definition WorldOK (w : World) : Prop := PowersOK (accum (osc w)).

Lemma runCheck_WorldOK `{Log10} env buf oscType : Preserves WorldOK (runCheck env buf oscType).
Proof.
  intros w Hw. unfold runCheck, checkResult.
  destruct (getChannelData buf 0) as [data|]; [|done].
  by apply checkLoop_PowersOK.
Qed.

Lemma loadReferenceAndRunTest_WorldOK `{Log10} env oscType :
  Preserves WorldOK (loadReferenceAndRunTest env oscType).
Proof. apply preserves_chain; [by intros ? w|done|intros; apply runCheck_WorldOK|by intros w]. Qed.

Lemma step_WorldOK `{Log10} w w' : step w w' -> WorldOK w -> WorldOK w'.
Proof.
  destruct 1 as [t w|env c oscType d w]; [done|].
  intros Hw. by apply loadReferenceAndRunTest_WorldOK.
Qed.

(** A threshold that compares false with everything: a property absent
    from the argument of [setThresholds] leaves NaN. *)
Definition HasNaNThreshold (th : Thresholds) : Prop :=
  thresholdSNR th = NaN \/ thresholdDiff th = NaN \/ thresholdDiffCount th = NaN.

Lemma setThresholds_NaN t st :
  argSnr t = None \/ argMaxDiff t = None \/ argDiffCount t = None ->
  HasNaNThreshold (thresholds (setThresholds t st)).
Proof. unfold HasNaNThreshold. cbn. by intros [->|[->| ->]]; [left|right;left|right;right]. Qed.

Lemma checkResult_NaN_threshold `{Log10} th ref p dl buf oscType out :
  HasNaNThreshold th -> checkResult th ref p dl buf oscType = Some out ->
  allPass (outAssertions out) = false.
Proof.
  intros Hth Hc. unfold checkResult in Hc.
  destruct (getChannelData buf 0); simplify_eq/=.
  unfold allPass. cbn [forallb assertionPasses app].
  destruct Hth as [->|[->| ->]]; cbn; rewrite ?num_le_NaN_r; cbn; by rewrite ?andb_false_r.
Qed.

(** The thresholds stay [th], and what was reported after [log0] is
    nothing or a list of assertions that fails. *)
Definition FailsAfter (th : Thresholds) (log0 : list Assertion) (w : World) : Prop :=
  thresholds (osc w) = th /\
  exists l, log w = log0 ++ l /\ (l = [] \/ allPass l = false).

Lemma runCheck_FailsAfter `{Log10} th log0 env buf oscType :
  HasNaNThreshold th -> Preserves (FailsAfter th log0) (runCheck env buf oscType).
Proof.
  intros Hth w (Hw & l & Hl & Hl'). unfold runCheck.
  destruct (checkResult _ _ _ _ buf oscType) as [out|] eqn:Hc; [|by split; [|exists l]].
  rewrite Hw in Hc. apply checkResult_NaN_threshold in Hc; [|done].
  split; [done|]. exists (l ++ outAssertions out). cbn [log].
  split; [by rewrite Hl, app_assoc|]. right.
  unfold allPass in *. by rewrite forallb_app, Hc, andb_false_r.
Qed.

Lemma loadReferenceAndRunTest_FailsAfter `{Log10} th log0 env oscType :
  HasNaNThreshold th -> Preserves (FailsAfter th log0) (loadReferenceAndRunTest env oscType).
Proof.
  intros Hth. apply preserves_chain; [by intros ? w|done|intros; by apply runCheck_FailsAfter|by intros w].
Qed.

(** C15. Invariant of the harness: in every world reachable by any
    sequence of [setThresholds] and [runTest] calls (with any
    collaborators, any buffers, NaN and infinities included), the closure
    accumulators [signalPower] and [noisePower] are never negative: each is
    a non-negative number, [+Infinity] or NaN. *)
Theorem reachable_powers_nonneg `{Log10} (w : World) :
  reachable w -> num_nonneg (signalPower (accum (osc w))) /\ num_nonneg (noisePower (accum (osc w))).
Proof.
  intros Hr. cut (WorldOK w); [done|].
  refine (rtc_ind_r WorldOK initialWorld _ _ w Hr); [split; cbn; lra|].
  intros y z _ Hs IH. by eapply step_WorldOK.
Qed.

Lemma reachable_powers_nonneg_witness :
  @reachable pade_Log10 (mkWorld (setThresholds (mkThresholdsArg None None None) initialState)
                           freshContext [] false) /\
  num_nonneg (signalPower (accum initialState)) /\ num_nonneg (noisePower (accum initialState)).
Proof.
  split.
  - apply rtc_once. apply (@step_setThresholds pade_Log10 (mkThresholdsArg None None None) initialWorld).
  - apply (@reachable_powers_nonneg pade_Log10 initialWorld). apply rtc_refl.
Defined.

(** ** Runs of the chain *)

(** Collaborators that serve a fixed reference channel and render a fixed
    channel; nothing is downloaded. *)
Definition testEnv (ref rendered : list num) : Env :=
  mkEnv (fun _ => Fulfilled []) (fun _ => Fulfilled (mkAudioBuffer [ref]))
        (fun _ => Fulfilled (mkAudioBuffer [rendered])) (fun _ _ => false).

(** C16. A run whose collaborators all succeed does, in this order: store
    the decoded channel as [reference], build the sweep in the test's
    context, render that graph, run [checkResult] on the rendered channel
    against the new reference starting from the accumulators left by
    earlier runs, report its assertions, and call [task.done()]. *)
Theorem runTest_success `{Log10} (env : Env) (context : Context) (oscType description : string)
    (w : World) (response : ArrayBuffer) (audioBuffer resultBuffer : AudioBuffer)
    (ch data : list num) (ctx' : Context) :
  loadFileFromUrl env (referenceUrl oscType) = Fulfilled response ->
  decodeAudioData env response = Fulfilled audioBuffer ->
  getChannelData audioBuffer 0 = Some ch ->
  generateExponentialOscillatorSweep oscType context = Some (tt, ctx') ->
  startRendering env ctx' = Fulfilled resultBuffer ->
  getChannelData resultBuffer 0 = Some data ->
  exists out,
    checkResult (thresholds (osc w)) (RefLoaded ch) (accum (osc w)) (downloadAudioBuffer env)
                resultBuffer oscType = Some out /\
    outLoop out = checkLoop (RefLoaded ch) data (accum (osc w)) /\
    runTest env context oscType description w =
      (Fulfilled tt, mkWorld (mkState (thresholds (osc w)) (RefLoaded ch) (powers (outLoop out)))
                             ctx' (log w ++ outAssertions out) true).
Proof.
  intros Hl Hd Hc Hg Hr Hch.
  assert (Hout : exists out, checkResult (thresholds (osc w)) (RefLoaded ch) (accum (osc w))
                   (downloadAudioBuffer env) resultBuffer oscType = Some out /\
                   outLoop out = checkLoop (RefLoaded ch) data (accum (osc w))).
  { unfold checkResult. rewrite Hch. eexists. split; reflexivity. }
  destruct Hout as (out & Hout & Hloop). exists out. do 2 (split; [done|]).
  unfold runTest, loadReferenceAndRunTest, mbind, Chain_bind, await.
  cbn [osc ctx log]. rewrite Hl, Hd. unfold throwIfNone. rewrite Hc.
  unfold assignReference, inContext. cbn [ctx]. rewrite Hg.
  unfold render. cbn [ctx]. rewrite Hr. unfold runCheck. cbn [osc thresholds reference accum].
  by rewrite Hout.
Qed.

Lemma runTest_success_witness :
  loadFileFromUrl (testEnv [Fin 1] [Fin 1]) (referenceUrl "sine") = Fulfilled [] /\
  decodeAudioData (testEnv [Fin 1] [Fin 1]) [] = Fulfilled (mkAudioBuffer [[Fin 1]]) /\
  getChannelData (mkAudioBuffer [[Fin 1]]) 0 = Some [Fin 1] /\
  (exists c', generateExponentialOscillatorSweep "sine" freshContext = Some (tt, c') /\
   startRendering (testEnv [Fin 1] [Fin 1]) c' = Fulfilled (mkAudioBuffer [[Fin 1]]) /\
   exists out,
    @checkResult pade_Log10 (thresholds (osc initialWorld)) (RefLoaded [Fin 1]) (accum (osc initialWorld))
      (downloadAudioBuffer (testEnv [Fin 1] [Fin 1])) (mkAudioBuffer [[Fin 1]]) "sine" = Some out /\
    outLoop out = checkLoop (RefLoaded [Fin 1]) [Fin 1] (accum (osc initialWorld)) /\
    @runTest pade_Log10 (testEnv [Fin 1] [Fin 1]) freshContext "sine" "" initialWorld =
      (Fulfilled tt, mkWorld (mkState (thresholds (osc initialWorld)) (RefLoaded [Fin 1])
                               (powers (outLoop out))) c' (log initialWorld ++ outAssertions out) true)).
Proof.
  do 3 (split; [reflexivity|]). eexists. split; [reflexivity|]. split; [reflexivity|].
  apply (@runTest_success pade_Log10 _ _ _ _ _ [] (mkAudioBuffer [[Fin 1]]) (mkAudioBuffer [[Fin 1]])
           [Fin 1] [Fin 1]); reflexivity.
Defined.

(** C17. No [catch] ends the chain: when loading, decoding, building the
    graph, rendering or [getChannelData] fails, the rejection skips every
    later callback, so [task.done()] is never called (the task is left
    pending), no assertion is reported, and the thresholds and
    accumulators are untouched. *)
Theorem runTest_rejected_never_done `{Log10} (env : Env) (context : Context)
    (oscType description : string) (w w' : World) (e : string) :
  runTest env context oscType description w = (Rejected e, w') ->
  taskDone w' = false /\ log w' = log w /\ accum (osc w') = accum (osc w) /\
  thresholds (osc w') = thresholds (osc w).
Proof.
  unfold runTest, loadReferenceAndRunTest, mbind, Chain_bind, await. cbn [osc ctx log].
  destruct (loadFileFromUrl env _) as [resp|e1]; [|intros [= <- <-]; done].
  destruct (decodeAudioData env resp) as [ab|e2]; [|intros [= <- <-]; done].
  unfold throwIfNone. destruct (getChannelData ab 0) as [ch|]; [|intros [= <- <-]; done].
  unfold assignReference, inContext. cbn [ctx].
  destruct (generateExponentialOscillatorSweep _ _) as [[[] c']|]; [|intros [= <- <-]; done].
  unfold render. cbn [ctx]. destruct (startRendering env c') as [rb|e3]; [|intros [= <- <-]; done].
  unfold runCheck. cbn [osc thresholds reference accum].
  destruct (checkResult _ _ _ _ _ _); [discriminate|intros [= <- <-]; done].
Qed.

Lemma runTest_rejected_never_done_witness :
  @runTest pade_Log10 (mkEnv (fun _ => Rejected "404") (fun _ => Rejected "x")
                         (fun _ => Rejected "x") (fun _ _ => false))
    freshContext "sine" "" initialWorld = (Rejected "404", mkWorld initialState freshContext [] false) /\
  taskDone (mkWorld initialState freshContext [] false) = false /\
  log (mkWorld initialState freshContext [] false) = log initialWorld /\
  accum (osc (mkWorld initialState freshContext [] false)) = accum (osc initialWorld) /\
  thresholds (osc (mkWorld initialState freshContext [] false)) = thresholds (osc initialWorld).
Proof.
  split; [reflexivity|].
  apply (@runTest_rejected_never_done pade_Log10
           (mkEnv (fun _ => Rejected "404") (fun _ => Rejected "x") (fun _ => Rejected "x")
                  (fun _ _ => false)) freshContext "sine" "" initialWorld _ "404").
  reflexivity.
Defined.

(** C20. [setThresholds] with an argument that lacks [snr], [maxDiff] or
    [diffCount] stores [undefined]; every comparison with it is false, so
    whatever the next [runTest] renders and loads, it reports either
    nothing (the chain rejected) or assertions of which at least one
    fails: no test can pass until the thresholds are set again. *)
Theorem setThresholds_missing_fails `{Log10} (t : ThresholdsArg) (w : World) (env : Env)
    (context : Context) (oscType description : string) :
  argSnr t = None \/ argMaxDiff t = None \/ argDiffCount t = None ->
  exists l, log (snd (runTest env context oscType description
                        (mkWorld (setThresholds t (osc w)) (ctx w) (log w) (taskDone w))))
            = log w ++ l /\ (l = [] \/ allPass l = false).
Proof.
  intros Ht. unfold runTest. cbn [osc log].
  apply (loadReferenceAndRunTest_FailsAfter (thresholds (setThresholds t (osc w)))).
  - by apply setThresholds_NaN.
  - split; [done|]. exists []. by rewrite app_nil_r; auto.
Qed.

Lemma setThresholds_missing_fails_witness :
  (argSnr (mkThresholdsArg (Some (Fin 80)) None (Some (Fin 0))) = None \/
   argMaxDiff (mkThresholdsArg (Some (Fin 80)) None (Some (Fin 0))) = None \/
   argDiffCount (mkThresholdsArg (Some (Fin 80)) None (Some (Fin 0))) = None) /\
  exists l, log (snd (@runTest pade_Log10 (testEnv [Fin 1] [Fin 1]) freshContext "sine" ""
                   (mkWorld (setThresholds (mkThresholdsArg (Some (Fin 80)) None (Some (Fin 0)))
                                           (osc initialWorld))
                            (ctx initialWorld) (log initialWorld) (taskDone initialWorld))))
            = log initialWorld ++ l /\ (l = [] \/ allPass l = false).
Proof.
  split; [right; left; reflexivity|].
  apply (@setThresholds_missing_fails pade_Log10). right; left; reflexivity.
Defined.


(** A run with the test collaborators on a fresh context reports what
    [checkResult] reports on the rendered channel. *)
Lemma runTest_testEnv_log `{Log10} ref data description w :
  log (snd (runTest (testEnv ref data) freshContext "sine" description w)) =
    log w ++ match checkResult (thresholds (osc w)) (RefLoaded ref) (accum (osc w))
                               (fun _ _ => false) (mkAudioBuffer [data]) "sine" with
             | Some out => outAssertions out
             | None => []
             end.
Proof. reflexivity. Qed.

(** On an empty rendered channel the loop does nothing: the assertions
    are made on the accumulators alone. *)
Lemma checkResult_empty `{Log10} th ref p :
  checkResult th (RefLoaded ref) p (fun _ _ => false) (mkAudioBuffer [[]]) "sine" =
    Some (mkOutcome (loopInit p) (calculateSNR (signalPower p) (noisePower p))
      [Should (calculateSNR (signalPower p) (noisePower p)) "SNR" (BeGreaterThanOrEqualTo (thresholdSNR th));
       Should (Fin (-1)) "Maximum difference" (BeLessThanOrEqualTo (thresholdDiff th));
       Should (num_of_nat 0) (countLabel 0) (BeLessThanOrEqualTo (thresholdDiffCount th))]).
Proof. reflexivity. Qed.

(** C26. An empty render is never detected once a run has left signal
    power behind: on a page whose accumulators hold a positive signal
    power and no noise (after a perfect match, for instance), a test
    whose rendered channel is empty reports its three assertions and
    they all pass, for any thresholds a test sets (a finite SNR, a
    maximum difference and a count not below -1 and 0); on a fresh page
    the same test fails, its SNR being NaN (0 / 0). *)
Theorem empty_render_passes_after_signal `{Log10} (w : World) (ref : list num) (s : Q) :
  (0 < s)%Q -> accum (osc w) = mkPowers (Fin s) (Fin 0) ->
  num_ge PInf (thresholdSNR (thresholds (osc w))) = true ->
  num_le (Fin (-1)) (thresholdDiff (thresholds (osc w))) = true ->
  num_le (Fin 0) (thresholdDiffCount (thresholds (osc w))) = true ->
  (exists l, log (snd (runTest (testEnv ref []) freshContext "sine" "" w)) = log w ++ l /\
             length l = 3 /\ allPass l = true) /\
  allPass (log (snd (runTest (testEnv ref []) freshContext "sine" "" initialWorld))) = false.
Proof.
  intros Hs Hacc Hsnr Hdiff Hcount. split.
  - rewrite runTest_testEnv_log, checkResult_empty, Hacc. cbn [signalPower noisePower outAssertions].
    rewrite (calculateSNR_zero_noise s Hs).
    eexists. split; [reflexivity|]. split; [reflexivity|].
    unfold allPass. cbn [forallb assertionPasses]. change (num_of_nat 0) with (Fin 0).
    by rewrite Hsnr, Hdiff, Hcount.
  - rewrite runTest_testEnv_log, checkResult_empty. reflexivity.
Qed.

Lemma empty_render_passes_after_signal_witness :
  (0 < 1)%Q /\
  accum (osc (snd (@runTest pade_Log10 (testEnv [Fin 1] [Fin 1]) freshContext "sine" "" initialWorld)))
    = mkPowers (Fin 1) (Fin 0) /\
  (exists l, log (snd (@runTest pade_Log10 (testEnv [Fin 1] []) freshContext "sine" ""
                   (snd (@runTest pade_Log10 (testEnv [Fin 1] [Fin 1]) freshContext "sine" "" initialWorld))))
             = log (snd (@runTest pade_Log10 (testEnv [Fin 1] [Fin 1]) freshContext "sine" "" initialWorld)) ++ l /\
             length l = 3 /\ allPass l = true) /\
  allPass (log (snd (@runTest pade_Log10 (testEnv [Fin 1] []) freshContext "sine" "" initialWorld))) = false.
Proof.
  assert (Hacc : accum (osc (snd (@runTest pade_Log10 (testEnv [Fin 1] [Fin 1]) freshContext "sine" ""
                                   initialWorld))) = mkPowers (Fin 1) (Fin 0)) by (vm_compute; reflexivity).
  split; [reflexivity|]. split; [exact Hacc|].
  apply (@empty_render_passes_after_signal pade_Log10 _ [Fin 1] 1); [reflexivity|exact Hacc|
    vm_compute; reflexivity..].
Defined.






End Harness.
