(* ===== verification/Interleave.v ===== *)
(** * Overlapping runs of the harness: the promise callbacks as steps

    [runTest] returns as soon as the load is issued; the rest of the chain
    runs in callbacks ([then]) when the promises settle, and callbacks of
    other runs started on the same page may run in between.  Each callback
    runs to completion, so it is one atomic step here:

    - [AtDecode]: the load settled; the callback calls [decodeAudioData];
    - [AtRender]: the decode settled; the callback stores the channel in the
      shared [reference], builds the sweep and starts rendering;
    - [AtCheck]: the render settled; the callback runs [checkResult] on the
      shared closure state;
    - [AtDone]: the check returned; the callback calls [task.done()].

    A [Page] is the shared closure state and the runs started on it;
    [pstep] starts a run, fires one callback of any run, or sets the
    thresholds; [schedule] fires the callbacks of the runs named, in
    order; [fstep] is the event loop once every run has started.  The
    theorems: interleaved runs can check against each other's
    [reference]; the event loop terminates (the measure [pageRank]
    decreases); callbacks that do not touch the closure commute; a
    pending check reads the thresholds in force when it fires. *)

From S2P Require Import Prelude JsNum Compare Sweep Harness.
From stdpp Require Import strings relations.

Module Interleave.
Import Compare Sweep Harness.

Inductive Phase : Type :=
| AtDecode (response : ArrayBuffer)
| AtRender (audioBuffer : AudioBuffer)
| AtCheck (resultBuffer : AudioBuffer)
| AtDone
| Finished
| Failed (reason : string).

Record Run : Type := mkRun {
  renv : Env;
  rctx : Context;
  rtype : string;
  phase : Phase;
  rlog : list Assertion
}.

(** [runTest(context, oscType, ...)]: the load is issued; its outcome
    decides the first callback. *)
Definition startRun (env : Env) (context : Context) (oscType : string) : Run :=
  mkRun env context oscType
        (match loadFileFromUrl env (referenceUrl oscType) with
         | Fulfilled response => AtDecode response
         | Rejected e => Failed e
         end) [].

Definition withPhase (r : Run) (ph : Phase) : Run :=
  mkRun (renv r) (rctx r) (rtype r) ph (rlog r).

(** One callback of a run, on the shared closure state. *)
Definition fire `{Log10} (sh : OscState) (r : Run) : option (OscState * Run) :=
  match phase r with
  | AtDecode response =>
      Some (sh, withPhase r (match decodeAudioData (renv r) response with
                             | Fulfilled ab => AtRender ab
                             | Rejected e => Failed e
                             end))
  | AtRender ab =>
      match getChannelData ab 0 with
      | None => Some (sh, withPhase r (Failed "IndexSizeError"))
      | Some ch =>
          let sh' := mkState (thresholds sh) (RefLoaded ch) (accum sh) in
          match generateExponentialOscillatorSweep (rtype r) (rctx r) with
          | None => Some (sh', withPhase r (Failed "InvalidStateError"))
          | Some (_, c') =>
              Some (sh', mkRun (renv r) c' (rtype r)
                               (match startRendering (renv r) c' with
                                | Fulfilled rb => AtCheck rb
                                | Rejected e => Failed e
                                end) (rlog r))
          end
      end
  | AtCheck rb =>
      match checkResult (thresholds sh) (reference sh) (accum sh) (downloadAudioBuffer (renv r))
                        rb (rtype r) with
      | Some out =>
          Some (mkState (thresholds sh) (reference sh) (powers (outLoop out)),
                mkRun (renv r) (rctx r) (rtype r) AtDone (rlog r ++ outAssertions out))
      | None => Some (sh, withPhase r (Failed "IndexSizeError"))
      end
  | AtDone => Some (sh, withPhase r Finished)
  | Finished | Failed _ => None
  end.

(** ** A page: the shared closure state and the runs started on it *)

Record Page : Type := mkPage { shared : OscState; pageRuns : list Run }.

Inductive pstep `{Log10} : Page -> Page -> Prop :=
| pstep_start (env : Env) (context : Context) (oscType : string) (P : Page) :
    pstep P (mkPage (shared P) (pageRuns P ++ [startRun env context oscType]))
| pstep_fire (i : nat) (r r' : Run) (sh' : OscState) (P : Page) :
    pageRuns P !! i = Some r -> fire (shared P) r = Some (sh', r') ->
    pstep P (mkPage sh' (<[i := r']> (pageRuns P)))
| pstep_setThresholds (t : ThresholdsArg) (P : Page) :
    pstep P (mkPage (setThresholds t (shared P)) (pageRuns P)).

Definition emptyPage : Page := mkPage initialState [].

(** The callbacks that neither read nor write the closure state: the
    decode callback (it calls [decodeAudioData]) and the done callback. *)
Definition localPhase (ph : Phase) : bool :=
  match ph with AtDecode _ | AtDone => true | _ => false end.

(** The callbacks a run has still to fire. *)
Definition rank (ph : Phase) : nat :=
  match ph with
  | AtDecode _ => 4
  | AtRender _ => 3
  | AtCheck _ => 2
  | AtDone => 1
  | Finished | Failed _ => 0
  end.

Definition pageRank (P : Page) : nat := sum_list_with (fun r => rank (phase r)) (pageRuns P).

(** The callback steps of a page alone (no new run, no [setThresholds]):
    what the event loop does once every run has been started. *)
Inductive fstep `{Log10} : Page -> Page -> Prop :=
| fstep_fire (i : nat) (r r' : Run) (sh' : OscState) (P : Page) :
    pageRuns P !! i = Some r -> fire (shared P) r = Some (sh', r') ->
    fstep P (mkPage sh' (<[i := r']> (pageRuns P))).

(** ** Two runs on one page *)

(** Fire the callback of run [i], as [pstep_fire] does. *)
Definition fireAt `{Log10} (i : nat) (P : Page) : option Page :=
  r ← pageRuns P !! i;
  '(sh', r') ← fire (shared P) r;
  Some (mkPage sh' (<[i := r']> (pageRuns P))).

(** Fire the callbacks of the runs named by [order], in that order. *)
Fixpoint schedule `{Log10} (order : list nat) (P : Page) : option Page :=
  match order with
  | [] => Some P
  | i :: order' => fireAt i P ≫= schedule order'
  end.

Lemma fireAt_pstep `{Log10} i P P' : fireAt i P = Some P' -> pstep P P'.
Proof.
  unfold fireAt. intros HP.
  destruct (pageRuns P !! i) as [r|] eqn:Hr; [|done]. cbn in HP.
  destruct (fire (shared P) r) as [[sh' r']|] eqn:Hf; [|done]. simplify_eq/=.
  by eapply (pstep_fire i).
Qed.

Lemma schedule_rtc `{Log10} order P P' : schedule order P = Some P' -> rtc pstep P P'.
Proof.
  revert P. induction order as [|i order IH]; intros P HP; simplify_eq/=; [done|].
  destruct (fireAt i P) as [P1|] eqn:H1; [|done].
  eapply rtc_l; [by apply (fireAt_pstep i)|]. by apply IH.
Qed.

(** One failing assertion fails the whole log. *)
Lemma allPass_nth_false (l : list Assertion) (i : nat) (d : Assertion) :
  i < length l -> assertionPasses (nth i l d) = false -> allPass l = false.
Proof.
  intros Hi Hf. apply not_true_iff_false. intros Hall.
  unfold allPass in Hall. rewrite forallb_forall in Hall.
  rewrite Hall in Hf; [done|]. by apply nth_In.
Qed.

(** The page after run A (reference and render [1], "sine") and run B
    (reference and render [2], "square") have started. *)
Definition twoRuns : Page :=
  mkPage initialState [startRun (testEnv [Fin 1] [Fin 1]) freshContext "sine";
                       startRun (testEnv [Fin 2] [Fin 2]) freshContext "square"].

Lemma twoRuns_reachable `{Log10} : rtc pstep emptyPage twoRuns.
Proof.
  eapply rtc_l; [apply (pstep_start (testEnv [Fin 1] [Fin 1]) freshContext "sine")|].
  eapply rtc_l; [apply (pstep_start (testEnv [Fin 2] [Fin 2]) freshContext "square")|].
  apply rtc_refl.
Qed.

(** C19. Overlapping runs share [reference].  On the page where run A
    (reference [1], render [1], index 0) and run B (reference [2], render
    [2], index 1) have started, fire A's decode callback, B's, A's
    render callback (A's channel stored), B's (B's channel stored over
    it), then A's check and done callbacks: A compares its render with
    B's reference and finishes with a failing assertion (maximum
    difference 1).  Fired one run after the other, the same two runs both
    finish with every assertion passing. *)
Theorem interleaving_mixes_references `{Log10} :
  rtc pstep emptyPage twoRuns /\
  (exists P, schedule [0; 1; 0; 1; 0; 0] twoRuns = Some P /\
     exists rA, pageRuns P !! 0 = Some rA /\ phase rA = Finished /\ allPass (rlog rA) = false) /\
  (exists P, schedule [0; 0; 0; 0; 1; 1; 1; 1] twoRuns = Some P /\
     exists rA rB, pageRuns P = [rA; rB] /\ phase rA = Finished /\ phase rB = Finished /\
                   allPass (rlog rA) = true /\ allPass (rlog rB) = true).
Proof.
  split; [apply twoRuns_reachable|]. split.
  - destruct (schedule [0; 1; 0; 1; 0; 0] twoRuns) as [P|] eqn:HP; [|by vm_compute in HP].
    exists P. split; [done|]. vm_compute in HP. simplify_eq.
    eexists. split; [reflexivity|]. split; [reflexivity|].
    apply (allPass_nth_false _ 1 (ShouldMessage "" "")); vm_compute; [lia | reflexivity].
  - destruct (schedule [0; 0; 0; 0; 1; 1; 1; 1] twoRuns) as [P|] eqn:HP; [|by vm_compute in HP].
    exists P. split; [done|]. vm_compute in HP. simplify_eq.
    do 2 eexists. split; [reflexivity|].
    split; [reflexivity|]. split; [reflexivity|]. split; vm_compute; reflexivity.
Qed.

(** The page after one run (reference and render [1], "sine") has
    started. *)
Definition oneRun : Page :=
  mkPage initialState [startRun (testEnv [Fin 1] [Fin 1]) freshContext "sine"].

(** Thresholds another test may set: SNR 10000, maximum difference -1. *)
Definition stricterThresholds : ThresholdsArg :=
  mkThresholdsArg (Some (Fin 10000)) (Some (Fin (-1))) (Some (Fin 0)).

Lemma oneRun_reachable `{Log10} : rtc pstep emptyPage oneRun.
Proof. apply rtc_once, (pstep_start (testEnv [Fin 1] [Fin 1]) freshContext "sine"). Qed.

(** C25. A run is judged by the thresholds in force when its check
    callback fires, not by those in force when [runTest] was called.  On
    the page where run A (a perfect match, index 0) has started under the
    default thresholds, fire its decode and render callbacks: its check
    is pending.  If [setThresholds] is called then, A's check and done
    callbacks make it finish with a failing assertion; fired without
    the call, they make it finish with every assertion passing. *)
Theorem thresholds_read_at_check `{Log10} :
  rtc pstep emptyPage oneRun /\
  exists P1, schedule [0; 0] oneRun = Some P1 /\
    (exists r rb, pageRuns P1 !! 0 = Some r /\ phase r = AtCheck rb) /\
    (exists P, schedule [0; 0] (mkPage (setThresholds stricterThresholds (shared P1)) (pageRuns P1))
                 = Some P /\
       exists rA, pageRuns P !! 0 = Some rA /\ phase rA = Finished /\ allPass (rlog rA) = false) /\
    (exists P, schedule [0; 0] P1 = Some P /\
       exists rA, pageRuns P !! 0 = Some rA /\ phase rA = Finished /\ allPass (rlog rA) = true).
Proof.
  split; [apply oneRun_reachable|].
  destruct (schedule [0; 0] oneRun) as [P1|] eqn:H1; [|by vm_compute in H1].
  exists P1. split; [done|]. vm_compute in H1. simplify_eq.
  split; [do 2 eexists; split; reflexivity|]. split.
  - match goal with |- exists P, schedule ?o ?Q = Some P /\ _ =>
      destruct (schedule o Q) as [P|] eqn:HP; [|by vm_compute in HP] end.
    exists P. split; [done|]. vm_compute in HP. simplify_eq.
    eexists. split; [reflexivity|]. split; [reflexivity|].
    apply (allPass_nth_false _ 1 (ShouldMessage "" "")); vm_compute; [lia | reflexivity].
  - match goal with |- exists P, schedule ?o ?Q = Some P /\ _ =>
      destruct (schedule o Q) as [P|] eqn:HP; [|by vm_compute in HP] end.
    exists P. split; [done|]. vm_compute in HP. simplify_eq.
    eexists. split; [reflexivity|]. split; [reflexivity|]. vm_compute. reflexivity.
Qed.

(** ** Termination and liveness of the callbacks *)

Lemma fire_rank `{Log10} sh r sh' r' :
  fire sh r = Some (sh', r') -> rank (phase r') < rank (phase r).
Proof. unfold fire. destruct (phase r); repeat case_match; intros; simplify_eq/=; lia. Qed.

Lemma fstep_pstep `{Log10} P P' : fstep P P' -> pstep P P'.
Proof. destruct 1. by eapply pstep_fire. Qed.

Lemma fstep_rank `{Log10} P P' : fstep P P' -> pageRank P' < pageRank P.
Proof.
  destruct 1 as [i r r' sh' P Hi Hf]. unfold pageRank. cbn [pageRuns].
  eapply sum_list_with_insert_lt; [exact Hi|]. by eapply fire_rank.
Qed.

(** C22. Termination of the event loop: from any page, every sequence of
    callback firings, in any interleaving of the runs, is finite. *)
Theorem fstep_terminates `{Log10} (P : Page) : sn fstep P.
Proof.
  remember (pageRank P) as n eqn:Hn. revert P Hn.
  induction n as [n IH] using (well_founded_induction lt_wf). intros P ->.
  constructor. intros P' HP'. eapply IH; [apply fstep_rank; exact HP'|done].
Qed.

(** ** Callbacks that do not touch the closure commute *)

Lemma fire_local `{Log10} r :
  localPhase (phase r) = true -> exists r', forall sh, fire sh r = Some (sh, r').
Proof. unfold fire, localPhase. destruct (phase r); try done; intros _; eexists; intros sh; done. Qed.

(** C23. Firing a decode or done callback of one run and any callback
    of another run gives the same page in either order: only the
    callbacks that store [reference] or run the check ([AtRender],
    [AtCheck]) can race. *)
Theorem local_callbacks_commute `{Log10} (P : Page) (i j : nat) (r : Run) :
  i <> j -> pageRuns P !! i = Some r -> localPhase (phase r) = true ->
  (fireAt i P ≫= fireAt j) = (fireAt j P ≫= fireAt i).
Proof.
  intros Hij Hi Hloc. destruct (fire_local r Hloc) as [r' Hr'].
  destruct P as [sh l]. cbn [pageRuns] in Hi. unfold fireAt. cbn [pageRuns shared].
  rewrite Hi. cbn. rewrite Hr'. cbn. rewrite list_lookup_insert_ne by done.
  destruct (l !! j) as [rj|] eqn:Hj; cbn; [|done].
  destruct (fire sh rj) as [[sh2 rj']|] eqn:Hf; cbn; [|done].
  rewrite list_lookup_insert_ne, Hi by done. cbn. rewrite Hr'. cbn.
  by rewrite list_insert_insert_ne by done.
Qed.

Lemma local_callbacks_commute_witness :
  0 <> 1 /\ pageRuns twoRuns !! 0 = Some (startRun (testEnv [Fin 1] [Fin 1]) freshContext "sine") /\
  localPhase (phase (startRun (testEnv [Fin 1] [Fin 1]) freshContext "sine")) = true /\
  (@fireAt pade_Log10 0 twoRuns ≫= @fireAt pade_Log10 1) = (@fireAt pade_Log10 1 twoRuns ≫= @fireAt pade_Log10 0).
Proof.
  split; [lia|]. split; [reflexivity|]. split; [reflexivity|].
  apply (@local_callbacks_commute pade_Log10 twoRuns 0 1 (startRun (testEnv [Fin 1] [Fin 1]) freshContext "sine"));
    [lia|reflexivity|reflexivity].
Defined.

End Interleave.
