(* ===== verification/Pointers.v ===== *)
(** * The [settings-pointers] Polymer element (pointers.js)

    The element's declaration (lines 9-53): its [properties] block
    ([prefs], [hasMouse], [hasTouchpad] and the read-only
    [sensitivityValues_]), the computed class of the mouse and touchpad
    sections ([getSubsectionClass_]) and the link handler
    [onLearnMoreLinkActivated_], which hands the event to the device page
    browser proxy singleton.

    Property values are JavaScript values ([JsVal]): a Boolean property
    set by a binding may still be [undefined], and [&&] returns one of its
    operands, so the conditional of [getSubsectionClass_] tests the
    truthiness of a value, not a Boolean.  The element's state is the map
    of its property values and the property-change notifications it has
    fired; [hostSet] is Polymer's property setter as the element's
    declaration configures it ([readOnly]: no public setter; [notify]: a
    [<name>-changed] event when the value changes).  The browser proxy is
    one object per page ([getInstance] creates it on first use), so all
    elements' handlers act on the same proxy. *)

From S2P Require Import Prelude.
From stdpp Require Import gmap strings.

Module Pointers.

(** ** JavaScript values and operators *)

Inductive JsVal : Type :=
| JUndefined
| JNull
| JBool (b : bool)
| JNumber (z : Z)
| JString (s : string)
| JArray (elems : list Z)
| JObject (id : nat).

#[export] Instance JsVal_eq_dec : EqDecision JsVal.
Proof. solve_decision. Defined.

(** ToBoolean: [undefined], [null], [false], [0] and [""] are falsy. *)
Definition truthy (v : JsVal) : bool :=
  match v with
  | JUndefined | JNull => false
  | JBool b => b
  | JNumber z => negb (Z.eqb z 0)
  | JString s => negb (String.eqb s "")
  | JArray _ | JObject _ => true
  end.

(** [a && b]: [b] when [a] is truthy, else [a] itself. *)
Definition jsAnd (a b : JsVal) : JsVal := if truthy a then b else a.

(** ** The element's declaration (lines 9-33) *)

Inductive PropType : Type := TObject | TBoolean | TArray.

(** A property's configuration: [type], [notify], [readOnly] and the
    initial [value] (absent: [undefined]). *)
Record PropConfig : Type := mkConfig {
  ptype : PropType;
  notify : bool;
  readOnly : bool;
  pvalue : option JsVal
}.

(** [sensitivityValues_]'s value [[1, 2, 3, 4, 5]] (line 30). *)
Definition sensitivityValues_ : JsVal := JArray [1; 2; 3; 4; 5]%Z.

(** The [properties] block; [hasMouse: Boolean] is the shorthand for a
    configuration with only a type. *)
Definition properties : list (string * PropConfig) :=
  [("prefs", mkConfig TObject true false None);
   ("hasMouse", mkConfig TBoolean false false None);
   ("hasTouchpad", mkConfig TBoolean false false None);
   ("sensitivityValues_", mkConfig TArray false true (Some sensitivityValues_))].

Definition configOf (name : string) : option PropConfig :=
  match list_find (fun p : string * PropConfig => p.1 = name) properties with
  | Some (_, (_, c)) => Some c
  | None => None
  end.

(** ** The element's state and Polymer's property setter *)

Record Element : Type := mkElement {
  values : gmap string JsVal;
  notifications : list (string * JsVal)
}.

Definition getProp (el : Element) (name : string) : JsVal :=
  default JUndefined (values el !! name).

(** A new element: every property with a [value] holds it. *)
Definition create : Element :=
  mkElement (foldr (fun '(name, c) m =>
                      match pvalue c with Some v => <[name := v]> m | None => m end)
                   ∅ properties) [].

(** [el.name = v] from the host or a binding: a read-only property has
    no public setter and keeps its value; an unchanged value does
    nothing; a [notify] property fires [<name>-changed] with the new
    value. *)
Definition hostSet (name : string) (v : JsVal) (el : Element) : Element :=
  match configOf name with
  | Some c =>
      if readOnly c then el
      else if decide (getProp el name = v) then el
      else mkElement (<[name := v]> (values el))
                     (if notify c then notifications el ++ [(String.append name "-changed", v)]
                      else notifications el)
  | None => mkElement (<[name := v]> (values el)) (notifications el)
  end.

(** ** [getSubsectionClass_] (lines 50-52) *)

Definition getSubsectionClass_ (hasMouse hasTouchpad : JsVal) : string :=
  if truthy (jsAnd hasMouse hasTouchpad) then "subsection" else "".

(** ** The browser proxy singleton and the link handler (lines 40-42) *)

(** An event delivered to the handler. *)
Record Event : Type := mkEvent { eventType : string }.

(** The calls the browser proxy has received ([handleLinkEvent]). *)
Record Proxy : Type := mkProxy { handledLinkEvents : list Event }.

(** The page: the singleton's instance, once created. *)
Record Browser : Type := mkBrowser { proxyInstance : option Proxy }.

(** [DevicePageBrowserProxyImpl.getInstance()]: the existing instance, or
    a new one that is kept for every later call. *)
Definition getInstance (b : Browser) : Proxy * Browser :=
  match proxyInstance b with
  | Some p => (p, b)
  | None => let p := mkProxy [] in (p, mkBrowser (Some p))
  end.

Definition handleLinkEvent (e : Event) (p : Proxy) : Proxy :=
  mkProxy (handledLinkEvents p ++ [e]).

(** The handler does not read the element: only the page's proxy
    changes. *)
Definition onLearnMoreLinkActivated_ (e : Event) (b : Browser) : Browser :=
  let '(p, _) := getInstance b in
  mkBrowser (Some (handleLinkEvent e p)).

(** The value of a [Boolean] property: [undefined] until a binding sets it. *)
Definition ofBoolean (o : option bool) : JsVal :=
  match o with Some b => JBool b | None => JUndefined end.

(** Host or binding writes to the element's properties. *)
Inductive estep : Element -> Element -> Prop :=
| estep_set (name : string) (v : JsVal) (el : Element) : estep el (hostSet name v el).

(** ** Properties *)

Lemma truthy_jsAnd a b : truthy (jsAnd a b) = truthy a && truthy b.
Proof. unfold jsAnd. by destruct (truthy a) eqn:Ha; [|rewrite Ha]. Qed.

Lemma configOf_cases name c :
  configOf name = Some c ->
  (name = "prefs" /\ c = mkConfig TObject true false None) \/
  (name = "hasMouse" /\ c = mkConfig TBoolean false false None) \/
  (name = "hasTouchpad" /\ c = mkConfig TBoolean false false None) \/
  (name = "sensitivityValues_" /\ c = mkConfig TArray false true (Some sensitivityValues_)).
Proof.
  unfold configOf. destruct (list_find _ _) as [[i [n c']]|] eqn:Hf; [|done]. intros [= <-].
  apply list_find_Some in Hf as (Hi & Hn & _). cbn in Hn. subst n.
  destruct i as [|[|[|[|i]]]]; cbn in Hi; simplify_eq; [left|right;left|right;right;left|right;right;right];
    done.
Qed.

Lemma configOf_prefs : configOf "prefs" = Some (mkConfig TObject true false None).
Proof. reflexivity. Qed.

Lemma configOf_sensitivity :
  configOf "sensitivityValues_" = Some (mkConfig TArray false true (Some sensitivityValues_)).
Proof. reflexivity. Qed.

Lemma getProp_insert_ne m ns name x v :
  name <> x -> getProp (mkElement (<[name := v]> m) ns) x = default JUndefined (m !! x).
Proof. intros Hne. unfold getProp. cbn. by rewrite lookup_insert_ne. Qed.

Lemma getProp_insert_eq m ns name v : getProp (mkElement (<[name := v]> m) ns) name = v.
Proof. unfold getProp. cbn. by rewrite lookup_insert_eq. Qed.

(** The element's invariant: the read-only values are those declared,
    every notification is a [prefs-changed], and the last one carries
    the current [prefs]. *)
Definition ElementOK (el : Element) : Prop :=
  getProp el "sensitivityValues_" = sensitivityValues_ /\
  Forall (fun n => n.1 = "prefs-changed") (notifications el) /\
  (forall n, last (notifications el) = Some n -> n.2 = getProp el "prefs").

Lemma create_OK : ElementOK create.
Proof. split; [reflexivity|]. split; [constructor|]. done. Qed.

(** A write to a property other than [prefs] and [sensitivityValues_]
    that fires nothing keeps the invariant. *)
Lemma ElementOK_insert_other el name v :
  name <> "prefs" -> name <> "sensitivityValues_" -> ElementOK el ->
  ElementOK (mkElement (<[name := v]> (values el)) (notifications el)).
Proof.
  intros Hp Hs (H1 & H2 & H3). split; [by rewrite getProp_insert_ne|]. split; [done|].
  intros n Hn. rewrite getProp_insert_ne by done. by apply H3.
Qed.

Lemma hostSet_OK name v el : ElementOK el -> ElementOK (hostSet name v el).
Proof.
  intros Hok. unfold hostSet.
  destruct (configOf name) as [c|] eqn:Hc.
  - destruct (configOf_cases _ _ Hc) as [[-> ->]|[[-> ->]|[[-> ->]|[-> ->]]]];
      cbn [readOnly notify]; [| | |done]; case_decide; try done;
      [|by apply ElementOK_insert_other..].
    destruct Hok as (H1 & H2 & H3). split; [by rewrite getProp_insert_ne|].
    split; [cbn [notifications]; apply Forall_app; by split; [|constructor]|].
    intros n. cbn [notifications]. rewrite last_snoc. intros [= <-]. by rewrite getProp_insert_eq.
  - apply ElementOK_insert_other; [| |done]; intros ->;
      [rewrite configOf_prefs in Hc | rewrite configOf_sensitivity in Hc]; done.
Qed.

(** C18. The mouse and touchpad sections are subsections exactly when
    both [hasMouse] and [hasTouchpad] are truthy ([&&] returns an
    operand, and the conditional tests its truthiness); for values of the
    declared [Boolean] properties, exactly when both are [true], and the
    class is empty when either is [false] or still [undefined]. *)
Theorem getSubsectionClass_spec (m t : JsVal) :
  (getSubsectionClass_ m t = "subsection" <-> truthy m = true /\ truthy t = true) /\
  (getSubsectionClass_ m t = "" <-> ~ (truthy m = true /\ truthy t = true)) /\
  (forall bm bt : option bool,
     getSubsectionClass_ (ofBoolean bm) (ofBoolean bt) = "subsection" <->
     bm = Some true /\ bt = Some true).
Proof.
  unfold getSubsectionClass_. rewrite truthy_jsAnd.
  split; [|split].
  - destruct (truthy m), (truthy t); cbn; intuition congruence.
  - destruct (truthy m), (truthy t); cbn; intuition congruence.
  - intros [[]|] [[]|]; cbn; intuition congruence.
Qed.

(** C21. Invariant of the element under any sequence of writes from the
    host or bindings: [sensitivityValues_] keeps its declared value
    [[1, 2, 3, 4, 5]] (it is read-only), the only notification ever fired
    is [prefs-changed] (the only [notify] property), and the last one
    carries the current value of [prefs]. *)
Theorem element_reachable_OK (el : Element) :
  rtc estep create el ->
  getProp el "sensitivityValues_" = sensitivityValues_ /\
  Forall (fun n => n.1 = "prefs-changed") (notifications el) /\
  (forall n, last (notifications el) = Some n -> n.2 = getProp el "prefs").
Proof.
  intros Hr. change (ElementOK el). revert el Hr.
  refine (rtc_ind_r ElementOK create create_OK _).
  intros y z _ [name v] IH. by apply hostSet_OK.
Qed.

Lemma element_reachable_OK_witness :
  rtc estep create (hostSet "sensitivityValues_" (JArray []) (hostSet "prefs" (JObject 1) create)) /\
  getProp (hostSet "sensitivityValues_" (JArray []) (hostSet "prefs" (JObject 1) create))
          "sensitivityValues_" = sensitivityValues_ /\
  Forall (fun n => n.1 = "prefs-changed")
         (notifications (hostSet "sensitivityValues_" (JArray []) (hostSet "prefs" (JObject 1) create))) /\
  (forall n, last (notifications (hostSet "sensitivityValues_" (JArray [])
                                    (hostSet "prefs" (JObject 1) create))) = Some n ->
             n.2 = getProp (hostSet "sensitivityValues_" (JArray []) (hostSet "prefs" (JObject 1) create))
                           "prefs").
Proof.
  assert (Hr : rtc estep create (hostSet "sensitivityValues_" (JArray []) (hostSet "prefs" (JObject 1) create))).
  { eapply rtc_l; [apply estep_set|]. eapply rtc_l; [apply estep_set|]. apply rtc_refl. }
  split; [exact Hr|]. exact (element_reachable_OK _ Hr).
Defined.

End Pointers.
